(** * SIREN report engine: the incident report model and its severity score

    A shallow embedding of [src/report_engine.py] (the data classes
    [TimelineEvent], [IOC], [AffectedSystem] and [IncidentReport], the
    builder methods, [calculate_severity_score] and [to_dict]), followed by
    the properties the specification states about them. *)

From Stdlib Require Import ZArith QArith Qround Qminmax Lqa List String Ascii Lia.
From stdpp Require Import base option list sorting gmap.

Set Warnings "-register-all".
Local Open Scope Z_scope.

(** ** Python values *)

(** A Python [str] is a sequence of Unicode code points.  Equality is
    equality of the sequences and [<] is the lexicographic order of the
    code points. *)
Definition pystr : Type := list N.

(** A string literal of the source (all of them are ASCII). *)
Definition py (s : string) : pystr := N_of_ascii <$> list_ascii_of_string s.

(** [bool(s)]: a string is falsy exactly when it is empty. *)
Definition str_truthy (s : pystr) : bool :=
  match s with
  | [] => false
  | _ :: _ => true
  end.

(** [a < b] on [str]. *)
Definition str_lt (a b : pystr) : bool :=
  match list_compare N.compare a b with
  | Lt => true
  | _ => false
  end.

(** [str.isspace] on one code point: the characters CPython's
    [_PyUnicode_IsWhitespace] accepts, which are the ones [str.strip()]
    removes when it is called without an argument. *)
Definition Py_UNICODE_ISSPACE (c : N) : bool :=
  ((9 <=? c) && (c <=? 13) || (28 <=? c) && (c <=? 32)
   || (c =? 133) || (c =? 160) || (c =? 5760)
   || (8192 <=? c) && (c <=? 8202)
   || (c =? 8232) || (c =? 8233) || (c =? 8239) || (c =? 8287)
   || (c =? 12288))%N.

Fixpoint lstrip (s : pystr) : pystr :=
  match s with
  | [] => []
  | c :: s' => if Py_UNICODE_ISSPACE c then lstrip s' else s
  end.

Definition rstrip (s : pystr) : pystr := reverse (lstrip (reverse s)).

(** [s.strip()] *)
Definition strip (s : pystr) : pystr := rstrip (lstrip s).

(** A Python number is an [int] or a [float].  A float is modelled by the
    rational it stands for, kept in lowest terms.  For the floats of this
    module that is exact where it matters: the products [len * 0.5] and
    [len * 0.75] are only kept when they are at most 3, where they are
    multiples of 1/4 that binary floating point represents exactly, and so
    are the sums built from them; [round(_, 1)] returns the double nearest
    to a decimal with one digit, which compares with the integers 4, 6 and
    8 as that decimal does. *)
Inductive pynum : Type :=
  | PyInt (z : Z)
  | PyFloat (q : Q).

Definition to_Q (x : pynum) : Q :=
  match x with
  | PyInt z => inject_Z z
  | PyFloat q => q
  end.

(** [a + b]: an [int] when both operands are, a [float] otherwise. *)
Definition py_add (a b : pynum) : pynum :=
  match a, b with
  | PyInt x, PyInt y => PyInt (x + y)
  | _, _ => PyFloat (Qred (to_Q a + to_Q b))
  end.

(** [a * b] *)
Definition py_mul (a b : pynum) : pynum :=
  match a, b with
  | PyInt x, PyInt y => PyInt (x * y)
  | _, _ => PyFloat (Qred (to_Q a * to_Q b))
  end.

(** [a < b] and [a >= b] compare the numeric values. *)
Definition py_lt (a b : pynum) : bool := negb (Qle_bool (to_Q b) (to_Q a)).
Definition py_ge (a b : pynum) : bool := Qle_bool (to_Q b) (to_Q a).

(** [min(a, b)]: the builtin keeps its first argument unless a later one is
    strictly smaller, so on a tie it returns [a] (with [a]'s type). *)
Definition py_min (a b : pynum) : pynum := if py_lt b a then b else a.

(** Rounding a rational to the nearest integer, ties to the even one. *)
Definition round_half_even (q : Q) : Z :=
  let f := Qfloor q in
  match Qcompare (q - inject_Z f) (1 # 2) with
  | Lt => f
  | Gt => f + 1
  | Eq => if Z.even f then f else f + 1
  end.

(** [round(x, ndigits)] for [ndigits >= 0]: an [int] is returned as it is;
    a [float] is rounded to [ndigits] decimals, ties to even. *)
Definition py_round (x : pynum) (ndigits : nat) : pynum :=
  match x with
  | PyInt z => PyInt z
  | PyFloat q =>
      let scale := 10 ^ Z.of_nat ndigits in
      PyFloat (Qred (inject_Z (round_half_even (q * inject_Z scale)) / inject_Z scale))
  end.

(** [len(l)] *)
Definition len {A} (l : list A) : pynum := PyInt (Z.of_nat (length l)).

(** What a [to_dict] returns: strings, numbers, lists, and dicts with string
    keys in insertion order. *)
Inductive pyval : Type :=
  | VStr (s : pystr)
  | VNum (x : pynum)
  | VList (l : list pyval)
  | VDict (d : list (pystr * pyval)).

(** [d[k]] on the entries of a dict. *)
Fixpoint dict_get (k : pystr) (d : list (pystr * pyval)) : option pyval :=
  match d with
  | [] => None
  | (k', v) :: d' => if decide (k' = k) then Some v else dict_get k d'
  end.

(** [v[k]] for a value that is a dict. *)
Definition item (v : pyval) (k : string) : option pyval :=
  match v with
  | VDict d => dict_get (py k) d
  | _ => None
  end.

(** ** The data classes *)

(** Severity scoring weights used by [calculate_severity_score]. *)
Definition SEVERITY_WEIGHTS : gmap pystr Z :=
  {[ py "Low" := 1; py "Medium" := 2; py "High" := 3; py "Critical" := 4 ]}.

Module TimelineEvent.
Record t : Type := mk { timestamp : pystr; description : pystr; source : pystr }.

Definition to_dict (self : t) : pyval :=
  VDict [ (py "timestamp", VStr (timestamp self));
          (py "description", VStr (description self));
          (py "source", VStr (source self)) ].
End TimelineEvent.

Module IOC.
Record t : Type := mk { ioc_type : pystr; value : pystr; context : pystr }.

Definition to_dict (self : t) : pyval :=
  VDict [ (py "type", VStr (ioc_type self));
          (py "value", VStr (value self));
          (py "context", VStr (context self)) ].
End IOC.

Module AffectedSystem.
Record t : Type := mk { hostname : pystr; ip_address : pystr; impact : pystr }.

Definition to_dict (self : t) : pyval :=
  VDict [ (py "hostname", VStr (hostname self));
          (py "ip_address", VStr (ip_address self));
          (py "impact", VStr (impact self)) ].
End AffectedSystem.

(** What construction reads from outside the program: the clock (read once
    for each use), a random UUID, SHA-256 and [str.upper]. *)
Record Runtime : Type := {
  utcnow_Ymd : pystr;              (* datetime.utcnow().strftime("%Y%m%d") *)
  utcnow_isoformat : pystr;        (* datetime.utcnow().isoformat() *)
  uuid4 : pystr;                   (* str(uuid.uuid4()) *)
  sha256_hexdigest : pystr -> pystr; (* hashlib.sha256(s.encode()).hexdigest() *)
  upper : pystr -> pystr;          (* str.upper *)
  utcnow_created : pystr           (* datetime.utcnow().strftime("%Y-%m-%d %H:%M:%S UTC") *)
}.

Module IncidentReport.
Record t : Type := mk {
  title : pystr;
  severity : pystr;
  category : pystr;
  analyst : pystr;
  description : pystr;
  detection_date : pystr;
  containment_date : pystr;
  eradication_date : pystr;
  recovery_date : pystr;
  executive_summary : pystr;
  incident_id : pystr;
  created_at : pystr;
  timeline_events : list TimelineEvent.t;
  iocs : list IOC.t;
  affected_systems : list AffectedSystem.t;
  recommendations : list pystr
}.

(** Assignments to one field of [self]. *)
Definition set_incident_id (self : t) (v : pystr) : t :=
  mk (title self) (severity self) (category self) (analyst self) (description self)
     (detection_date self) (containment_date self) (eradication_date self)
     (recovery_date self) (executive_summary self) v (created_at self)
     (timeline_events self) (iocs self) (affected_systems self) (recommendations self).

Definition set_created_at (self : t) (v : pystr) : t :=
  mk (title self) (severity self) (category self) (analyst self) (description self)
     (detection_date self) (containment_date self) (eradication_date self)
     (recovery_date self) (executive_summary self) (incident_id self) v
     (timeline_events self) (iocs self) (affected_systems self) (recommendations self).

Definition set_timeline_events (self : t) (v : list TimelineEvent.t) : t :=
  mk (title self) (severity self) (category self) (analyst self) (description self)
     (detection_date self) (containment_date self) (eradication_date self)
     (recovery_date self) (executive_summary self) (incident_id self) (created_at self)
     v (iocs self) (affected_systems self) (recommendations self).

Definition set_iocs (self : t) (v : list IOC.t) : t :=
  mk (title self) (severity self) (category self) (analyst self) (description self)
     (detection_date self) (containment_date self) (eradication_date self)
     (recovery_date self) (executive_summary self) (incident_id self) (created_at self)
     (timeline_events self) v (affected_systems self) (recommendations self).

Definition set_affected_systems (self : t) (v : list AffectedSystem.t) : t :=
  mk (title self) (severity self) (category self) (analyst self) (description self)
     (detection_date self) (containment_date self) (eradication_date self)
     (recovery_date self) (executive_summary self) (incident_id self) (created_at self)
     (timeline_events self) (iocs self) v (recommendations self).

Definition set_recommendations (self : t) (v : list pystr) : t :=
  mk (title self) (severity self) (category self) (analyst self) (description self)
     (detection_date self) (containment_date self) (eradication_date self)
     (recovery_date self) (executive_summary self) (incident_id self) (created_at self)
     (timeline_events self) (iocs self) (affected_systems self) v.

(** [_generate_incident_id]: IR-YYYYMMDD-XXXX. *)
Definition _generate_incident_id (rt : Runtime) (self : t) : pystr :=
  let date_part := utcnow_Ymd rt in
  let hash_input := title self ++ utcnow_isoformat rt ++ uuid4 rt in
  let hash_suffix := upper rt (take 4 (sha256_hexdigest rt hash_input)) in
  py "IR-" ++ date_part ++ py "-" ++ hash_suffix.

(** [__post_init__]: generate incident ID and creation timestamp on init. *)
Definition __post_init__ (rt : Runtime) (self : t) : t :=
  let self :=
    if negb (str_truthy (incident_id self))
    then set_incident_id self (_generate_incident_id rt self)
    else self in
  if negb (str_truthy (created_at self))
  then set_created_at self (utcnow_created rt)
  else self.

(** The generated [__init__] of the data class stores its arguments and
    calls [__post_init__]. *)
Definition __init__ (rt : Runtime) (fields : t) : t := __post_init__ rt fields.

(** [list.sort(key=...)] is a stable sort that compares the keys with [<].
    It is modelled as an insertion sort: an element moves to the right past
    the elements of a strictly smaller key, and past no other. *)
Fixpoint sort_insert {A} (key : A -> pystr) (x : A) (l : list A) : list A :=
  match l with
  | [] => [x]
  | y :: l' => if str_lt (key y) (key x) then y :: sort_insert key x l' else x :: l
  end.

Fixpoint list_sort {A} (key : A -> pystr) (l : list A) : list A :=
  match l with
  | [] => []
  | x :: l' => sort_insert key x (list_sort key l')
  end.

Definition add_timeline_event (self : t) (timestamp description source : pystr) : t :=
  let event := TimelineEvent.mk timestamp description source in
  let self := set_timeline_events self (timeline_events self ++ [event]) in
  set_timeline_events self (list_sort TimelineEvent.timestamp (timeline_events self)).

Definition add_ioc (self : t) (ioc_type value context : pystr) : t :=
  let indicator := IOC.mk ioc_type value context in
  set_iocs self (iocs self ++ [indicator]).

Definition add_affected_system (self : t) (hostname ip_address impact : pystr) : t :=
  let system := AffectedSystem.mk hostname ip_address impact in
  set_affected_systems self (affected_systems self ++ [system]).

Definition add_recommendation (self : t) (recommendation : pystr) : t :=
  if str_truthy (strip recommendation)
  then set_recommendations self (recommendations self ++ [strip recommendation])
  else self.

Definition calculate_severity_score (self : t) : pyval :=
  let base := PyInt (default 2 (SEVERITY_WEIGHTS !! severity self)) in
  let ioc_factor := py_min (py_mul (len (iocs self)) (PyFloat (1 # 2))) (PyInt 3) in
  let system_factor :=
    py_min (py_mul (len (affected_systems self)) (PyFloat (3 # 4))) (PyInt 3) in
  let critical_bonus :=
    if decide (severity self = py "Critical") then PyFloat (3 # 2) else PyInt 0 in
  let raw := py_add (py_add (py_add base ioc_factor) system_factor) critical_bonus in
  let score := py_round (py_min raw (PyInt 10)) 1 in
  let rating :=
    if py_ge score (PyInt 8) then py "CRITICAL"
    else if py_ge score (PyInt 6) then py "HIGH"
    else if py_ge score (PyInt 4) then py "MEDIUM"
    else py "LOW" in
  VDict [ (py "score", VNum score);
          (py "rating", VStr rating);
          (py "breakdown",
            VDict [ (py "base_severity", VNum base);
                    (py "ioc_factor", VNum (py_round ioc_factor 1));
                    (py "system_factor", VNum (py_round system_factor 1));
                    (py "critical_bonus", VNum critical_bonus) ]) ].

Definition to_dict (self : t) : pyval :=
  VDict [ (py "incident_id", VStr (incident_id self));
          (py "title", VStr (title self));
          (py "severity", VStr (severity self));
          (py "category", VStr (category self));
          (py "analyst", VStr (analyst self));
          (py "description", VStr (description self));
          (py "created_at", VStr (created_at self));
          (py "dates",
            VDict [ (py "detection", VStr (detection_date self));
                    (py "containment", VStr (containment_date self));
                    (py "eradication", VStr (eradication_date self));
                    (py "recovery", VStr (recovery_date self)) ]);
          (py "executive_summary", VStr (executive_summary self));
          (py "severity_score", calculate_severity_score self);
          (py "timeline", VList (TimelineEvent.to_dict <$> timeline_events self));
          (py "iocs", VList (IOC.to_dict <$> iocs self));
          (py "affected_systems", VList (AffectedSystem.to_dict <$> affected_systems self));
          (py "recommendations", VList (VStr <$> recommendations self)) ].
End IncidentReport.

Import IncidentReport.

Import IncidentReport.

(** ** Sequences of builder calls *)

(** The four mutation operations of a report, as data. *)
Inductive call : Type :=
  | AddTimelineEvent (timestamp description source : pystr)
  | AddIoc (ioc_type value context : pystr)
  | AddAffectedSystem (hostname ip_address impact : pystr)
  | AddRecommendation (recommendation : pystr).

Definition do_call (self : t) (c : call) : t :=
  match c with
  | AddTimelineEvent ts d s => add_timeline_event self ts d s
  | AddIoc ty v c => add_ioc self ty v c
  | AddAffectedSystem h ip i => add_affected_system self h ip i
  | AddRecommendation s => add_recommendation self s
  end.

(** The report after a sequence of calls, made one after the other. *)
Definition run (self : t) (cs : list call) : t := foldl do_call self cs.

(** What each kind of call contributes to its collection. *)
Definition added_events (cs : list call) : list TimelineEvent.t :=
  omap (λ c, match c with
             | AddTimelineEvent ts d s => Some (TimelineEvent.mk ts d s)
             | _ => None
             end) cs.

Definition added_iocs (cs : list call) : list IOC.t :=
  omap (λ c, match c with AddIoc ty v c => Some (IOC.mk ty v c) | _ => None end) cs.

Definition added_systems (cs : list call) : list AffectedSystem.t :=
  omap (λ c, match c with
             | AddAffectedSystem h ip i => Some (AffectedSystem.mk h ip i)
             | _ => None
             end) cs.

Definition added_recommendations (cs : list call) : list pystr :=
  omap (λ c, match c with
             | AddRecommendation s => if str_truthy (strip s) then Some (strip s) else None
             | _ => None
             end) cs.

(** A report as [IncidentReport(title=..., severity=...)] builds it when the
    collections are left to their default factories, before [__post_init__]. *)
Definition fields_of (title severity : pystr) : t :=
  mk title severity (py "Other") [] [] [] [] [] [] [] [] [] [] [] [] [].

(** A report of the given severity with [n] IOCs and [m] affected systems. *)
Definition report_with (severity : pystr) (n m : nat) : t :=
  set_affected_systems
    (set_iocs (fields_of (py "Incident") severity) (replicate n (IOC.mk [] [] [])))
    (replicate m (AffectedSystem.mk [] [] [])).

(** ** Reading a serialized report *)

Definition num_item (v : pyval) (k : string) : option pynum :=
  match item v k with
  | Some (VNum x) => Some x
  | _ => None
  end.

Definition str_item (v : pyval) (k : string) : option pystr :=
  match item v k with
  | Some (VStr s) => Some s
  | _ => None
  end.

Definition list_item (v : pyval) (k : string) : option (list pyval) :=
  match item v k with
  | Some (VList l) => Some l
  | _ => None
  end.

Definition TimelineEvent_of_dict (v : pyval) : option TimelineEvent.t :=
  ts ← str_item v "timestamp"; d ← str_item v "description"; s ← str_item v "source";
  Some (TimelineEvent.mk ts d s).

Definition IOC_of_dict (v : pyval) : option IOC.t :=
  ty ← str_item v "type"; x ← str_item v "value"; c ← str_item v "context";
  Some (IOC.mk ty x c).

Definition AffectedSystem_of_dict (v : pyval) : option AffectedSystem.t :=
  h ← str_item v "hostname"; ip ← str_item v "ip_address"; i ← str_item v "impact";
  Some (AffectedSystem.mk h ip i).

Definition str_of_val (v : pyval) : option pystr :=
  match v with
  | VStr s => Some s
  | _ => None
  end.

(** The collection stored under key [k], each entry read back with [dec]. *)
Definition read_list {A} (dec : pyval → option A) (v : pyval) (k : string) : option (list A) :=
  l ← list_item v k; mapM dec l.

(** ** The scoring formula in the words of the specification *)

(** The weight table {Low:1, Medium:2, High:3, Critical:4}; unknown -> 2. *)
Definition spec_base (sev : pystr) : Q :=
  if decide (sev = py "Low") then 1
  else if decide (sev = py "Medium") then 2
  else if decide (sev = py "High") then 3
  else if decide (sev = py "Critical") then 4
  else 2.

(** min(count(iocs) x 0.5, 3.0) *)
Definition spec_ioc_factor (n : nat) : Q := Qmin (inject_Z (Z.of_nat n) * (1 # 2)) 3.

(** min(count(affected_systems) x 0.75, 3.0) *)
Definition spec_system_factor (m : nat) : Q := Qmin (inject_Z (Z.of_nat m) * (3 # 4)) 3.

(** 1.5 if severity == "Critical" else 0 *)
Definition spec_critical_bonus (sev : pystr) : Q :=
  if decide (sev = py "Critical") then 3 # 2 else 0.

(** Rounding to 1 decimal place. *)
Definition round1 (q : Q) : Q := inject_Z (round_half_even (q * 10)) / 10.

Definition spec_raw (sev : pystr) (n m : nat) : Q :=
  spec_base sev + spec_ioc_factor n + spec_system_factor m + spec_critical_bonus sev.

(** score = round(min(raw, 10.0), 1 decimal place) *)
Definition spec_score (sev : pystr) (n m : nat) : Q := round1 (Qmin (spec_raw sev n m) 10).

(** "CRITICAL" if score>=8, "HIGH" if score>=6, "MEDIUM" if score>=4, else "LOW" *)
Definition spec_rating (score : Q) : pystr :=
  if Qle_bool 8 score then py "CRITICAL"
  else if Qle_bool 6 score then py "HIGH"
  else if Qle_bool 4 score then py "MEDIUM"
  else py "LOW".

(** The severity levels the weight table knows. *)
Definition known_severity (sev : pystr) : Prop :=
  sev = py "Low" ∨ sev = py "Medium" ∨ sev = py "High" ∨ sev = py "Critical".

(** The shape of the dict [calculate_severity_score] returns. *)
Definition score_dict (score : pynum) (rating : pystr)
    (base ioc_factor system_factor critical_bonus : pynum) : pyval :=
  VDict [ (py "score", VNum score);
          (py "rating", VStr rating);
          (py "breakdown",
            VDict [ (py "base_severity", VNum base);
                    (py "ioc_factor", VNum ioc_factor);
                    (py "system_factor", VNum system_factor);
                    (py "critical_bonus", VNum critical_bonus) ]) ].

(** Two strings that differ at most in the case of their ASCII letters. *)
Definition lower_ascii (c : N) : N :=
  if ((65 <=? c) && (c <=? 90))%N then (c + 32)%N else c.

Definition same_letters (a b : pystr) : Prop := lower_ascii <$> a = lower_ascii <$> b.

(** ** Order of timestamps *)

(** [a <= b] on [str], as the sort sees it: [b] is not smaller than [a]. *)
Definition str_le (a b : pystr) : Prop := str_lt b a = false.

(** A list of events in ascending order of timestamp. *)
Definition sorted_by {A} (key : A → pystr) (l : list A) : Prop :=
  StronglySorted (λ x y, str_le (key x) (key y)) l.

(** The events of [l] that carry the key [k], in the order they have in
    [l]: a stable sort leaves each of these sub-sequences as it found it. *)
Definition with_key {A} (key : A → pystr) (k : pystr) (l : list A) : list A :=
  filter (λ x, key x = k) l.

(** ** Sample data *)

Definition upper_ascii (c : N) : N :=
  if ((97 <=? c) && (c <=? 122))%N then (c - 32)%N else c.

Definition sample_runtime : Runtime :=
  {| utcnow_Ymd := py "20250211";
     utcnow_isoformat := py "2025-02-11T10:15:00.000000";
     uuid4 := py "123e4567-e89b-42d3-a456-426614174000";
     sha256_hexdigest := λ _, py "a3f7c0de";
     upper := fmap upper_ascii;
     utcnow_created := py "2025-02-11 10:15:00 UTC" |}.

Definition sample_fields : t := fields_of (py "Qakbot infection") (py "High").

(** A report that is being reconstructed from a saved one. *)
Definition sample_saved : t :=
  set_created_at (set_incident_id sample_fields (py "IR-20250101-BEEF"))
    (py "2025-01-01 00:00:00 UTC").

Definition sample_calls : list call :=
  [ AddTimelineEvent (py "2025-02-11 09:00") (py "Macro executed") (py "EDR");
    AddIoc (py "Domain") (py "evil.example") [];
    AddTimelineEvent (py "2025-02-11 08:30") (py "Phishing mail received") (py "Mail gateway");
    AddRecommendation (py "  Patch CVE-1234  ");
    AddTimelineEvent (py "2025-02-11 09:00") (py "Beacon to C2") (py "Proxy");
    AddRecommendation (py "   ");
    AddAffectedSystem (py "ws-042") (py "10.0.0.42") (py "Workstation compromised") ].

(** ** The enumerations *)

(** Incident severity levels aligned with common SOC triage scales. *)
Module SeverityLevel.
Inductive t : Type := LOW | MEDIUM | HIGH | CRITICAL.

Definition value (level : t) : pystr :=
  match level with
  | LOW => py "Low"
  | MEDIUM => py "Medium"
  | HIGH => py "High"
  | CRITICAL => py "Critical"
  end.

(** The members in definition order, as iterating over the [Enum] gives them. *)
Definition members : list t := [LOW; MEDIUM; HIGH; CRITICAL].

(** The position of a member in that order. *)
Definition rank (level : t) : nat :=
  match level with
  | LOW => 0
  | MEDIUM => 1
  | HIGH => 2
  | CRITICAL => 3
  end.
End SeverityLevel.

(** Incident classification categories based on NIST 800-61 taxonomy. *)
Module IncidentCategory.
Inductive t : Type :=
  | MALWARE | PHISHING | UNAUTHORIZED_ACCESS | DDOS | DATA_BREACH
  | INSIDER_THREAT | WEB_APP_ATTACK | RANSOMWARE | OTHER.

Definition value (c : t) : pystr :=
  match c with
  | MALWARE => py "Malware Incident"
  | PHISHING => py "Phishing Attack"
  | UNAUTHORIZED_ACCESS => py "Unauthorized Access"
  | DDOS => py "DDoS Attack"
  | DATA_BREACH => py "Data Breach"
  | INSIDER_THREAT => py "Insider Threat"
  | WEB_APP_ATTACK => py "Web Application Attack"
  | RANSOMWARE => py "Ransomware"
  | OTHER => py "Other"
  end.

Definition members : list t :=
  [MALWARE; PHISHING; UNAUTHORIZED_ACCESS; DDOS; DATA_BREACH;
   INSIDER_THREAT; WEB_APP_ATTACK; RANSOMWARE; OTHER].
End IncidentCategory.

(** ** Further observations of a report *)

(** The fields no builder method assigns. *)
Definition scalars (r : t) : list pystr :=
  [ incident_id r; created_at r; title r; severity r; category r; analyst r;
    description r; detection_date r; containment_date r; eradication_date r;
    recovery_date r; executive_summary r ].

(** [isinstance(x, int)] *)
Definition is_int (x : pynum) : bool :=
  match x with
  | PyInt _ => true
  | PyFloat _ => false
  end.

(** Reading a whole report back from what [to_dict] returned. *)
Definition IncidentReport_of_dict (v : pyval) : option t :=
  incident_id ← str_item v "incident_id";
  title ← str_item v "title";
  severity ← str_item v "severity";
  category ← str_item v "category";
  analyst ← str_item v "analyst";
  description ← str_item v "description";
  created_at ← str_item v "created_at";
  dates ← item v "dates";
  detection ← str_item dates "detection";
  containment ← str_item dates "containment";
  eradication ← str_item dates "eradication";
  recovery ← str_item dates "recovery";
  executive_summary ← str_item v "executive_summary";
  timeline ← read_list TimelineEvent_of_dict v "timeline";
  iocs ← read_list IOC_of_dict v "iocs";
  systems ← read_list AffectedSystem_of_dict v "affected_systems";
  recommendations ← read_list str_of_val v "recommendations";
  Some (mk title severity category analyst description detection containment
          eradication recovery executive_summary incident_id created_at
          timeline iocs systems recommendations).

(** A string on which [strip] has nothing to remove. *)
Definition trimmed (s : pystr) : Prop :=
  (∀ c, head s = Some c → Py_UNICODE_ISSPACE c = false)
  ∧ (∀ c, last s = Some c → Py_UNICODE_ISSPACE c = false).

(** A runtime whose clock, hash and [upper] give strings of the lengths the
    real ones give: eight digits of date, a digest of at least four
    characters, upper-casing that keeps the length. *)
Definition well_formed_runtime (rt : Runtime) : Prop :=
  length (utcnow_Ymd rt) = 8%nat
  ∧ (∀ s, (4 ≤ length (sha256_hexdigest rt s))%nat)
  ∧ (∀ s, length (upper rt s) = length s).

(** ** Construction, with the exception it can raise *)

(** [s.encode()] raises [UnicodeEncodeError] on a surrogate code point. *)
Definition is_surrogate (c : N) : bool := ((55296 <=? c) && (c <=? 57343))%N.

Definition encode_raises (s : pystr) : bool := existsb is_surrogate s.

(** [IncidentReport(...)]: when an identifier has to be generated, the
    title, the time and the UUID are encoded for hashing, and the call
    raises if that fails; otherwise it returns what [__init__] built. *)
Definition construct_report (rt : Runtime) (fields : t) : option t :=
  if negb (str_truthy (incident_id fields))
     && encode_raises (title fields ++ utcnow_isoformat rt ++ uuid4 rt)
  then None
  else Some (__init__ rt fields).

(** ** The request handler of [app.py] *)

(** What [request.get_json()] returns: [None], a [bool], a number, a
    [str], a [list], or a [dict] with string keys in insertion order. *)
Inductive json : Type :=
  | JNull
  | JBool (b : bool)
  | JNum (x : pynum)
  | JStr (s : pystr)
  | JList (l : list json)
  | JDict (d : list (pystr * json)).

(** [bool(v)]: [None], [False], zero and the empty string, list and dict
    are falsy. *)
Definition truthy (v : json) : bool :=
  match v with
  | JNull => false
  | JBool b => b
  | JNum x => negb (Qeq_bool (to_Q x) 0)
  | JStr s => str_truthy s
  | JList [] => false
  | JList (_ :: _) => true
  | JDict [] => false
  | JDict (_ :: _) => true
  end.

(** How a block of the handler can end: it completes with a value; it
    raises an exception, which the handler catches; or it goes on with a
    value that is not a [str] in a place where a report holds a [str],
    which this development does not follow ([Untyped]). *)
Inductive outcome (A : Type) : Type :=
  | Done (a : A)
  | Raised
  | Untyped.
Arguments Done {A} a.
Arguments Raised {A}.
Arguments Untyped {A}.

Definition and_then {A B} (o : outcome A) (f : A → outcome B) : outcome B :=
  match o with
  | Done a => f a
  | Raised => Raised
  | Untyped => Untyped
  end.

#[global] Instance outcome_bind : MBind outcome := λ A B f o, and_then o f.

(** The entries of a dict are searched from the first. *)
Fixpoint entry (k : pystr) (d : list (pystr * json)) : option json :=
  match d with
  | [] => None
  | (k', v) :: d' => if decide (k' = k) then Some v else entry k d'
  end.

(** [v.get(k, default)]: only a [dict] has the method. *)
Definition get (v : json) (k : string) (dflt : json) : outcome json :=
  match v with
  | JDict d => Done (default dflt (entry (py k) d))
  | _ => Raised
  end.

(** [for x in v]: a list gives its elements, a string its characters, a
    dict its keys; [None], a [bool] and a number are not iterable. *)
Definition iterate (v : json) : outcome (list json) :=
  match v with
  | JList l => Done l
  | JStr s => Done ((λ c, JStr [c]) <$> s)
  | JDict d => Done ((λ kv, JStr kv.1) <$> d)
  | JNull | JBool _ | JNum _ => Raised
  end.

(** A value that is stored in a [str] field of the report. *)
Definition as_str (v : json) : outcome pystr :=
  match v with
  | JStr s => Done s
  | _ => Untyped
  end.

(** The body of a [for] loop, run on each element in turn. *)
Fixpoint for_each {A} (body : t → A → outcome t) (r : t) (l : list A) : outcome t :=
  match l with
  | [] => Done r
  | x :: l' => r' ← body r x; for_each body r' l'
  end.

(** [IncidentReport(title=data.get("title", "Untitled Incident"), ...)] *)
Definition construct (rt : Runtime) (data : json) : outcome t :=
  title ← get data "title" (JStr (py "Untitled Incident"));
  severity ← get data "severity" (JStr (py "Medium"));
  category ← get data "category" (JStr (py "Other"));
  analyst ← get data "analyst" (JStr (py "Unknown Analyst"));
  description ← get data "description" (JStr []);
  detection_date ← get data "detection_date" (JStr []);
  containment_date ← get data "containment_date" (JStr []);
  eradication_date ← get data "eradication_date" (JStr []);
  recovery_date ← get data "recovery_date" (JStr []);
  executive_summary ← get data "executive_summary" (JStr []);
  title ← as_str title;
  severity ← as_str severity;
  category ← as_str category;
  analyst ← as_str analyst;
  description ← as_str description;
  detection_date ← as_str detection_date;
  containment_date ← as_str containment_date;
  eradication_date ← as_str eradication_date;
  recovery_date ← as_str recovery_date;
  executive_summary ← as_str executive_summary;
  match construct_report rt
          (mk title severity category analyst description detection_date
             containment_date eradication_date recovery_date executive_summary
             [] [] [] [] [] []) with
  | Some report => Done report
  | None => Raised
  end.

Definition timeline_body (r : t) (event : json) : outcome t :=
  timestamp ← get event "timestamp" (JStr []);
  description ← get event "description" (JStr []);
  source ← get event "source" (JStr []);
  timestamp ← as_str timestamp;
  description ← as_str description;
  source ← as_str source;
  Done (add_timeline_event r timestamp description source).

Definition ioc_body (r : t) (ioc : json) : outcome t :=
  ioc_type ← get ioc "type" (JStr []);
  value ← get ioc "value" (JStr []);
  context ← get ioc "context" (JStr []);
  ioc_type ← as_str ioc_type;
  value ← as_str value;
  context ← as_str context;
  Done (add_ioc r ioc_type value context).

Definition system_body (r : t) (system : json) : outcome t :=
  hostname ← get system "hostname" (JStr []);
  ip_address ← get system "ip_address" (JStr []);
  impact ← get system "impact" (JStr []);
  hostname ← as_str hostname;
  ip_address ← as_str ip_address;
  impact ← as_str impact;
  Done (add_affected_system r hostname ip_address impact).

(** [report.add_recommendation(rec)]: [rec.strip()] exists on a [str] only. *)
Definition recommendation_body (r : t) (rec : json) : outcome t :=
  match rec with
  | JStr s => Done (add_recommendation r s)
  | _ => Raised
  end.

(** The statements of [generate_report] that build the report, from the
    constructor call to the last loop. *)
Definition build_report (rt : Runtime) (data : json) : outcome t :=
  report ← construct rt data;
  events ← (v ← get data "timeline_events" (JList []); iterate v);
  report ← for_each timeline_body report events;
  iocs ← (v ← get data "iocs" (JList []); iterate v);
  report ← for_each ioc_body report iocs;
  systems ← (v ← get data "affected_systems" (JList []); iterate v);
  report ← for_each system_body report systems;
  recs ← (v ← get data "recommendations" (JList []); iterate v);
  for_each recommendation_body report recs.

(** [ReportExporter], whose source is not part of the files at hand: its
    two renderings of a report, taken as given.  They are assumed to return
    (the exporter "has no failure mode of its own") and to leave the report
    as it is. *)
Record Exporter : Type := {
  to_markdown : t → pystr;
  to_json : t → pystr
}.

(** A response: the JSON body handed to [jsonify] and the status code. *)
Definition response : Type := json * Z.

Definition error_response (message : string) (status : Z) : response :=
  (JDict [ (py "error", JStr (py message)) ], status).

(** [generate_report], given what [request.get_json()] returned.  [None]
    stands for the requests this development does not follow. *)
Definition generate_report (rt : Runtime) (exporter : Exporter) (data : json)
    : option response :=
  if negb (truthy data) then Some (error_response "No data provided" 400)
  else
    match build_report rt data with
    | Done report =>
        let markdown_output := to_markdown exporter report in
        let json_output := to_json exporter report in
        Some (JDict [ (py "success", JBool true);
                      (py "incident_id", JStr (incident_id report));
                      (py "markdown", JStr markdown_output);
                      (py "json", JStr json_output) ], 200)
    | Raised =>
        Some (error_response "An internal error has occurred while generating the report." 500)
    | Untyped => None
    end.

(** The payload the page sends for a report: every key present, every
    value of the type the handler expects. *)
Definition event_payload (e : TimelineEvent.t) : json :=
  JDict [ (py "timestamp", JStr (TimelineEvent.timestamp e));
          (py "description", JStr (TimelineEvent.description e));
          (py "source", JStr (TimelineEvent.source e)) ].

Definition ioc_payload (i : IOC.t) : json :=
  JDict [ (py "type", JStr (IOC.ioc_type i));
          (py "value", JStr (IOC.value i));
          (py "context", JStr (IOC.context i)) ].

Definition system_payload (a : AffectedSystem.t) : json :=
  JDict [ (py "hostname", JStr (AffectedSystem.hostname a));
          (py "ip_address", JStr (AffectedSystem.ip_address a));
          (py "impact", JStr (AffectedSystem.impact a)) ].

Definition payload_with (f : t) (events : list TimelineEvent.t) (iocs : list IOC.t)
    (systems : list AffectedSystem.t) (recommendations : json) : json :=
  JDict [ (py "title", JStr (title f));
          (py "severity", JStr (severity f));
          (py "category", JStr (category f));
          (py "analyst", JStr (analyst f));
          (py "description", JStr (description f));
          (py "detection_date", JStr (detection_date f));
          (py "containment_date", JStr (containment_date f));
          (py "eradication_date", JStr (eradication_date f));
          (py "recovery_date", JStr (recovery_date f));
          (py "executive_summary", JStr (executive_summary f));
          (py "timeline_events", JList (event_payload <$> events));
          (py "iocs", JList (ioc_payload <$> iocs));
          (py "affected_systems", JList (system_payload <$> systems));
          (py "recommendations", recommendations) ].

Definition payload (f : t) (events : list TimelineEvent.t) (iocs : list IOC.t)
    (systems : list AffectedSystem.t) (recs : list pystr) : json :=
  payload_with f events iocs systems (JList (JStr <$> recs)).

(** The fields of [f] that a payload carries, the rest as the constructor
    finds them: no identifier, no creation time, empty collections. *)
Definition payload_fields (f : t) : t :=
  mk (title f) (severity f) (category f) (analyst f) (description f)
     (detection_date f) (containment_date f) (eradication_date f)
     (recovery_date f) (executive_summary f) [] [] [] [] [] [].

(** The builder calls the handler makes for a payload, in its order: the
    timeline events, the IOCs, the affected systems, the recommendations. *)
Definition payload_calls (events : list TimelineEvent.t) (iocs : list IOC.t)
    (systems : list AffectedSystem.t) (recs : list pystr) : list call :=
  ((λ e, AddTimelineEvent (TimelineEvent.timestamp e) (TimelineEvent.description e)
           (TimelineEvent.source e)) <$> events)
  ++ ((λ i, AddIoc (IOC.ioc_type i) (IOC.value i) (IOC.context i)) <$> iocs)
  ++ ((λ a, AddAffectedSystem (AffectedSystem.hostname a) (AffectedSystem.ip_address a)
              (AffectedSystem.impact a)) <$> systems)
  ++ (AddRecommendation <$> recs).

(** The report the handler builds when the payload has none of its keys. *)
Definition default_fields : t :=
  mk (py "Untitled Incident") (py "Medium") (py "Other") (py "Unknown Analyst")
     [] [] [] [] [] [] [] [] [] [] [] [].

(** The keys [generate_report] reads. *)
Definition handler_keys : list pystr :=
  py <$> [ "title"; "severity"; "category"; "analyst"; "description";
           "detection_date"; "containment_date"; "eradication_date";
           "recovery_date"; "executive_summary"; "timeline_events"; "iocs";
           "affected_systems"; "recommendations" ]%string.

Definition sample_exporter : Exporter :=
  {| to_markdown := λ r, py "# " ++ title r; to_json := λ r, py "{}" |}.

(* ================================================================= *)
(** * Properties *)

(** ** Strings *)

Lemma N_compare_trans (x y z : N) (c : comparison) :
  (x ?= y)%N = c → (y ?= z)%N = c → (x ?= z)%N = c.
Proof.
  destruct c; intros H1 H2.
  - apply N.compare_eq_iff in H1, H2. apply N.compare_eq_iff. congruence.
  - rewrite N.compare_lt_iff in *. lia.
  - rewrite N.compare_gt_iff in *. lia.
Qed.

Lemma str_compare_eq (a b : pystr) : list_compare N.compare a b = Eq ↔ a = b.
Proof. apply list_compare_refl, N.compare_eq_iff. Qed.

Lemma str_compare_antisym (a b : pystr) :
  list_compare N.compare b a = CompOpp (list_compare N.compare a b).
Proof. apply list_compare_antisym; [apply N.compare_eq_iff | intros; apply N.compare_antisym]. Qed.

Lemma str_compare_lt_trans (a b c : pystr) :
  list_compare N.compare a b = Lt → list_compare N.compare b c = Lt →
  list_compare N.compare a c = Lt.
Proof.
  apply list_compare_trans;
    [apply N.compare_eq_iff | apply N_compare_trans | intros; apply N.compare_antisym].
Qed.

Lemma str_lt_irrefl (a : pystr) : str_lt a a = false.
Proof. unfold str_lt. by rewrite (proj2 (str_compare_eq a a) eq_refl). Qed.

Lemma str_le_refl (a : pystr) : str_le a a.
Proof. apply str_lt_irrefl. Qed.

Lemma str_le_total (a b : pystr) : str_le a b ∨ str_le b a.
Proof.
  unfold str_le, str_lt. rewrite (str_compare_antisym a b).
  destruct (list_compare N.compare a b); simpl; auto.
Qed.

Lemma str_lt_le (a b : pystr) : str_lt a b = true → str_le a b.
Proof.
  unfold str_le, str_lt. rewrite (str_compare_antisym a b).
  by destruct (list_compare N.compare a b).
Qed.

Lemma str_le_antisym (a b : pystr) : str_le a b → str_le b a → a = b.
Proof.
  unfold str_le, str_lt. rewrite (str_compare_antisym a b).
  destruct (list_compare N.compare a b) eqn:E; simpl; try done.
  intros _ _. by apply str_compare_eq.
Qed.

Lemma str_le_trans (a b c : pystr) : str_le a b → str_le b c → str_le a c.
Proof.
  unfold str_le, str_lt.
  rewrite (str_compare_antisym a b), (str_compare_antisym b c), (str_compare_antisym a c).
  destruct (list_compare N.compare a b) eqn:E1; simpl; try done; intros _;
    destruct (list_compare N.compare b c) eqn:E2; simpl; try done; intros _.
  - apply str_compare_eq in E1, E2. subst. by rewrite (proj2 (str_compare_eq c c) eq_refl).
  - apply str_compare_eq in E1. subst. by rewrite E2.
  - apply str_compare_eq in E2. subst. by rewrite E1.
  - by rewrite (str_compare_lt_trans a b c E1 E2).
Qed.

(** ** [list.sort]: sorted, a permutation, stable, and determined by that *)

Section Sort.
Context {A : Type} (key : A → pystr).

Lemma sort_insert_Permutation (x : A) (l : list A) : sort_insert key x l ≡ₚ x :: l.
Proof.
  induction l as [|y l IH]; simpl; [done|].
  destruct (str_lt (key y) (key x)); [|done].
  rewrite IH. apply Permutation_swap.
Qed.

Lemma list_sort_Permutation (l : list A) : list_sort key l ≡ₚ l.
Proof.
  induction l as [|x l IH]; simpl; [done|].
  by rewrite sort_insert_Permutation, IH.
Qed.

Lemma sort_insert_sorted (x : A) (l : list A) :
  sorted_by key l → sorted_by key (sort_insert key x l).
Proof.
  unfold sorted_by. induction 1 as [|y l Hl IH Hy]; simpl.
  - repeat constructor.
  - destruct (str_lt (key y) (key x)) eqn:E.
    + constructor; [done|].
      rewrite sort_insert_Permutation. constructor; [by apply str_lt_le | done].
    + constructor; [by constructor|].
      constructor; [done|].
      eapply Forall_impl; [exact Hy|]. intros z Hz. by eapply str_le_trans.
Qed.

Lemma list_sort_sorted (l : list A) : sorted_by key (list_sort key l).
Proof.
  induction l as [|x l IH]; simpl; [constructor | by apply sort_insert_sorted].
Qed.

Lemma with_key_cons (k : pystr) (x : A) (l : list A) :
  with_key key k (x :: l)
  = if decide (key x = k) then x :: with_key key k l else with_key key k l.
Proof. unfold with_key. by rewrite filter_cons. Qed.

Lemma with_key_app (k : pystr) (l1 l2 : list A) :
  with_key key k (l1 ++ l2) = with_key key k l1 ++ with_key key k l2.
Proof. apply filter_app. Qed.

(** An element is only moved past elements of a strictly smaller key. *)
Lemma with_key_sort_insert (k : pystr) (x : A) (l : list A) :
  with_key key k (sort_insert key x l) = with_key key k (x :: l).
Proof.
  induction l as [|y l IH]; simpl; [done|].
  destruct (str_lt (key y) (key x)) eqn:E; [|done].
  rewrite (with_key_cons k y), IH, !with_key_cons.
  destruct (decide (key y = k)) as [Hy|], (decide (key x = k)) as [Hx|]; try done.
  rewrite Hy, Hx, str_lt_irrefl in E. done.
Qed.

Lemma with_key_list_sort (k : pystr) (l : list A) :
  with_key key k (list_sort key l) = with_key key k l.
Proof.
  induction l as [|x l IH]; simpl; [done|].
  by rewrite with_key_sort_insert, !with_key_cons, IH.
Qed.

Lemma with_key_elem_of (k : pystr) (x : A) (l : list A) :
  x ∈ with_key key k l ↔ key x = k ∧ x ∈ l.
Proof. unfold with_key. by rewrite list_elem_of_filter. Qed.

(** There is one sorted arrangement of a list that keeps the elements of
    equal key in their order: whatever stable algorithm [list.sort] runs,
    it returns what [list_sort] returns. *)
Lemma stable_sorted_unique (l1 l2 : list A) :
  sorted_by key l1 → sorted_by key l2 →
  (∀ k, with_key key k l1 = with_key key k l2) →
  l1 = l2.
Proof.
  unfold sorted_by. intros H1. revert l2.
  induction H1 as [|x l1 H1 IH Hx]; intros l2 H2 Hk.
  - destruct l2 as [|y l2]; [done|].
    specialize (Hk (key y)). rewrite with_key_cons in Hk.
    by destruct (decide (key y = key y)).
  - destruct H2 as [|y l2 H2 Hy].
    { specialize (Hk (key x)). rewrite with_key_cons in Hk.
      by destruct (decide (key x = key x)). }
    assert (key x = key y) as Hxy.
    { apply str_le_antisym.
      - assert (y ∈ x :: l1) as Hin.
        { apply (with_key_elem_of (key y)). rewrite Hk.
          apply with_key_elem_of. split; [done | left]. }
        apply elem_of_cons in Hin as [->|Hin]; [apply str_le_refl|].
        by eapply Forall_forall in Hx.
      - assert (x ∈ y :: l2) as Hin.
        { apply (with_key_elem_of (key x)). rewrite <- Hk.
          apply with_key_elem_of. split; [done | left]. }
        apply elem_of_cons in Hin as [->|Hin]; [apply str_le_refl|].
        by eapply Forall_forall in Hy. }
    assert (x = y) as ->.
    { specialize (Hk (key x)). rewrite !with_key_cons in Hk.
      rewrite <- Hxy in Hk. destruct (decide (key x = key x)); [|done]. congruence. }
    f_equal. apply IH; [done|]. intros k. specialize (Hk k).
    rewrite !with_key_cons in Hk. destruct (decide (key y = k)); congruence.
Qed.

Lemma list_sort_of_sorted (l : list A) : sorted_by key l → list_sort key l = l.
Proof.
  intros Hl. apply stable_sorted_unique; [apply list_sort_sorted | done |].
  intros k. apply with_key_list_sort.
Qed.

Lemma list_sort_app_sorted (l1 l2 : list A) :
  list_sort key (list_sort key l1 ++ l2) = list_sort key (l1 ++ l2).
Proof.
  apply stable_sorted_unique; [apply list_sort_sorted .. |].
  intros k. by rewrite !with_key_list_sort, !with_key_app, with_key_list_sort.
Qed.

End Sort.

(** ** Numbers *)

Lemma to_Q_py_add (a b : pynum) : to_Q (py_add a b) == to_Q a + to_Q b.
Proof.
  destruct a, b; simpl; rewrite ?Qred_correct; try reflexivity.
  by rewrite inject_Z_plus.
Qed.

Lemma to_Q_py_mul (a b : pynum) : to_Q (py_mul a b) == to_Q a * to_Q b.
Proof.
  destruct a, b; simpl; rewrite ?Qred_correct; reflexivity.
Qed.

Lemma py_lt_spec (a b : pynum) : py_lt a b = true ↔ (to_Q a < to_Q b)%Q.
Proof.
  unfold py_lt. rewrite negb_true_iff, <- not_true_iff_false, Qle_bool_iff.
  split; [apply Qnot_le_lt | apply Qlt_not_le].
Qed.

Lemma py_ge_spec (a b : pynum) : py_ge a b = true ↔ (to_Q b <= to_Q a)%Q.
Proof. apply Qle_bool_iff. Qed.

Lemma to_Q_py_min (a b : pynum) : to_Q (py_min a b) == Qmin (to_Q a) (to_Q b).
Proof.
  unfold py_min. destruct (py_lt b a) eqn:E.
  - apply py_lt_spec in E. symmetry. apply Q.min_r. by apply Qlt_le_weak.
  - symmetry. apply Q.min_l. apply Qnot_lt_le. intros H.
    apply py_lt_spec in H. congruence.
Qed.

(** *** Rounding, ties to even *)

Lemma round_half_even_comp (q q' : Q) : q == q' → round_half_even q = round_half_even q'.
Proof.
  intros H. unfold round_half_even.
  rewrite (Qfloor_comp _ _ H).
  assert (q - inject_Z (Qfloor q') == q' - inject_Z (Qfloor q')) as -> by (by rewrite H).
  done.
Qed.

#[local] Instance round_half_even_proper : Proper (Qeq ==> eq) round_half_even.
Proof. intros q q'. apply round_half_even_comp. Qed.

#[local] Instance round1_proper : Proper (Qeq ==> Qeq) round1.
Proof. intros q q' H. unfold round1. by rewrite H. Qed.

Lemma round_half_even_Z (z : Z) : round_half_even (inject_Z z) = z.
Proof.
  unfold round_half_even. rewrite Qfloor_Z.
  assert (inject_Z z - inject_Z z == 0) as -> by ring.
  done.
Qed.

(** The rounded value is within one half of the argument. *)
Lemma round_half_even_near (q : Q) :
  (inject_Z (round_half_even q) - (1 # 2) <= q ∧ q <= inject_Z (round_half_even q) + (1 # 2))%Q.
Proof.
  unfold round_half_even.
  pose proof (Qfloor_le q) as Hlo. pose proof (Qlt_floor q) as Hhi.
  rewrite inject_Z_plus in Hhi. change (inject_Z 1) with 1%Q in Hhi.
  destruct (Qcompare_spec (q - inject_Z (Qfloor q)) (1 # 2)) as [H|H|H].
  - destruct (Z.even (Qfloor q)); rewrite ?inject_Z_plus; change (inject_Z 1) with 1%Q; lra.
  - lra.
  - rewrite inject_Z_plus. change (inject_Z 1) with 1%Q. lra.
Qed.

(** [round1] returns a number of tenths, at most one twentieth away. *)
Lemma round1_near (q : Q) :
  (round1 q - (1 # 20) <= q ∧ q <= round1 q + (1 # 20))%Q
  ∧ ∃ z : Z, round1 q * 10 == inject_Z z.
Proof.
  unfold round1. pose proof (round_half_even_near (q * 10)) as [Hlo Hhi].
  unfold Qdiv. change (/ 10)%Q with (1 # 10). split; [split; lra|].
  exists (round_half_even (q * 10)). ring.
Qed.

Lemma round_half_even_mono (q q' : Q) :
  (q <= q')%Q → round_half_even q <= round_half_even q'.
Proof.
  intros Hle. pose proof (Qfloor_resp_le _ _ Hle) as Hf.
  destruct (Z.eq_dec (Qfloor q) (Qfloor q')) as [E|NE].
  - unfold round_half_even. rewrite E.
    destruct (Qcompare_spec (q - inject_Z (Qfloor q')) (1 # 2)) as [H|H|H],
             (Qcompare_spec (q' - inject_Z (Qfloor q')) (1 # 2)) as [H'|H'|H'];
      try destruct (Z.even (Qfloor q')); try lia; exfalso; lra.
  - assert (Qfloor q + 1 <= Qfloor q')%Z as Hlt by lia.
    transitivity (Qfloor q + 1)%Z; [|transitivity (Qfloor q')].
    + unfold round_half_even. destruct (_ ?= _)%Q; try destruct (Z.even _); lia.
    + done.
    + unfold round_half_even. destruct (_ ?= _)%Q; try destruct (Z.even _); lia.
Qed.

Lemma round1_mono (q q' : Q) : (q <= q')%Q → (round1 q <= round1 q')%Q.
Proof.
  intros H. unfold round1.
  assert (round_half_even (q * 10) <= round_half_even (q' * 10))%Z as Hz.
  { apply round_half_even_mono. lra. }
  rewrite Zle_Qle in Hz. unfold Qdiv. change (/ 10) with (1 # 10). lra.
Qed.

Lemma round1_Z (z : Z) : round1 (inject_Z z) == inject_Z z.
Proof.
  unfold round1.
  assert (inject_Z z * 10 == inject_Z (z * 10)) as -> by (rewrite inject_Z_mult; reflexivity).
  rewrite round_half_even_Z, inject_Z_mult. field.
Qed.

Lemma to_Q_py_round1 (x : pynum) : to_Q (py_round x 1) == round1 (to_Q x).
Proof.
  destruct x as [z|q]; simpl.
  - symmetry. apply round1_Z.
  - rewrite Qred_correct. reflexivity.
Qed.

(** ** The weight table *)

(** [SEVERITY_WEIGHTS.get(sev, 2)], case by case. *)
Lemma weight_lookup (sev : pystr) :
  default 2 (SEVERITY_WEIGHTS !! sev) =
    if decide (sev = py "Low") then 1
    else if decide (sev = py "Medium") then 2
    else if decide (sev = py "High") then 3
    else if decide (sev = py "Critical") then 4
    else 2.
Proof.
  unfold SEVERITY_WEIGHTS.
  repeat (case_decide; [subst sev; by vm_compute|]).
  by rewrite !lookup_insert_ne, lookup_singleton_ne by congruence.
Qed.

(** The known severities are the keys of the table. *)
Lemma known_severity_keys (sev : pystr) :
  known_severity sev ↔ is_Some (SEVERITY_WEIGHTS !! sev).
Proof.
  unfold known_severity, SEVERITY_WEIGHTS. split.
  - intros [-> | [-> | [-> | ->]]]; eexists; vm_compute; reflexivity.
  - intros [w Hw].
    destruct (decide (sev = py "Low")); [tauto|].
    destruct (decide (sev = py "Medium")); [tauto|].
    destruct (decide (sev = py "High")); [tauto|].
    destruct (decide (sev = py "Critical")); [tauto|].
    by rewrite !lookup_insert_ne, lookup_singleton_ne in Hw by congruence.
Qed.

Lemma weight_unknown (sev : pystr) :
  ¬ known_severity sev → default 2 (SEVERITY_WEIGHTS !! sev) = 2.
Proof.
  unfold known_severity. intros H. rewrite weight_lookup.
  repeat case_decide; tauto.
Qed.

Lemma to_Q_base (sev : pystr) :
  to_Q (PyInt (default 2 (SEVERITY_WEIGHTS !! sev))) = spec_base sev.
Proof. rewrite weight_lookup. unfold spec_base. by repeat case_decide. Qed.

Lemma spec_base_bounds (sev : pystr) : (1 <= spec_base sev <= 4)%Q.
Proof. unfold spec_base. repeat case_decide; split; by vm_compute. Qed.

Lemma spec_critical_bonus_bounds (sev : pystr) :
  (0 <= spec_critical_bonus sev <= 3 # 2)%Q.
Proof. unfold spec_critical_bonus. case_decide; split; by vm_compute. Qed.

(** ** [calculate_severity_score] *)

Lemma score_value (r : t) :
  ∃ x, num_item (calculate_severity_score r) "score" = Some x
       ∧ to_Q x == spec_score (severity r) (length (iocs r)) (length (affected_systems r)).
Proof.
  eexists. split; [reflexivity|].
  rewrite to_Q_py_round1, to_Q_py_min, !to_Q_py_add, !to_Q_py_min, !to_Q_py_mul, to_Q_base.
  unfold spec_score, spec_raw, spec_ioc_factor, spec_system_factor, spec_critical_bonus, len.
  simpl to_Q. by case_decide.
Qed.

Lemma spec_rating_cases (s : Q) :
  (spec_rating s = py "CRITICAL" ↔ (8 <= s)%Q)
  ∧ (spec_rating s = py "HIGH" ↔ (6 <= s < 8)%Q)
  ∧ (spec_rating s = py "MEDIUM" ↔ (4 <= s < 6)%Q)
  ∧ (spec_rating s = py "LOW" ↔ (s < 4)%Q).
Proof.
  unfold spec_rating.
  destruct (Qle_bool 8 s) eqn:E8; [|destruct (Qle_bool 6 s) eqn:E6;
    [|destruct (Qle_bool 4 s) eqn:E4]];
    repeat match goal with
           | H : Qle_bool _ _ = true |- _ => apply Qle_bool_iff in H
           | H : Qle_bool _ _ = false |- _ =>
               apply not_true_iff_false in H; rewrite Qle_bool_iff in H;
               apply Qnot_le_lt in H
           end;
    repeat split; intros; try discriminate; try lra.
Qed.

(** Everything the method returns, component by component. *)
Lemma calculate_severity_score_components (r : t) :
  let sev := severity r in
  let n := length (iocs r) in
  let m := length (affected_systems r) in
  ∃ score ioc_factor system_factor : pynum,
    calculate_severity_score r
    = score_dict score (spec_rating (to_Q score))
        (PyInt (default 2 (SEVERITY_WEIGHTS !! sev))) ioc_factor system_factor
        (if decide (sev = py "Critical") then PyFloat (3 # 2) else PyInt 0)
    ∧ to_Q score == spec_score sev n m
    ∧ to_Q ioc_factor == round1 (spec_ioc_factor n)
    ∧ to_Q system_factor == round1 (spec_system_factor m).
Proof.
  intros sev n m. eexists _, _, _. split; [reflexivity|]. split; [|split].
  - destruct (score_value r) as (x & Hx & Hq). injection Hx as <-. exact Hq.
  - by rewrite to_Q_py_round1, to_Q_py_min, to_Q_py_mul.
  - by rewrite to_Q_py_round1, to_Q_py_min, to_Q_py_mul.
Qed.

(** *** Bounds and monotonicity of the formula *)

Lemma count_nonneg (n : nat) (w : Q) : (0 <= w)%Q → (0 <= inject_Z (Z.of_nat n) * w)%Q.
Proof.
  intros Hw. apply Qmult_le_0_compat; [|done].
  change 0%Q with (inject_Z 0). rewrite <- Zle_Qle. lia.
Qed.

Lemma count_mono (n n' : nat) (w : Q) :
  (n ≤ n')%nat → (0 <= w)%Q →
  (inject_Z (Z.of_nat n) * w <= inject_Z (Z.of_nat n') * w)%Q.
Proof.
  intros Hn Hw. apply Qmult_le_compat_r; [|done].
  rewrite <- Zle_Qle. lia.
Qed.

Lemma spec_ioc_factor_bounds (n : nat) : (0 <= spec_ioc_factor n <= 3)%Q.
Proof.
  unfold spec_ioc_factor. split; [|apply Q.le_min_r].
  apply Q.min_glb; [by apply count_nonneg | done].
Qed.

Lemma spec_system_factor_bounds (m : nat) : (0 <= spec_system_factor m <= 3)%Q.
Proof.
  unfold spec_system_factor. split; [|apply Q.le_min_r].
  apply Q.min_glb; [by apply count_nonneg | done].
Qed.

Lemma spec_ioc_factor_mono (n n' : nat) :
  (n ≤ n')%nat → (spec_ioc_factor n <= spec_ioc_factor n')%Q.
Proof. intros H. apply Q.min_le_compat_r. by apply count_mono. Qed.

Lemma spec_system_factor_mono (m m' : nat) :
  (m ≤ m')%nat → (spec_system_factor m <= spec_system_factor m')%Q.
Proof. intros H. apply Q.min_le_compat_r. by apply count_mono. Qed.

Lemma spec_score_mono (sev : pystr) (n n' m m' : nat) :
  (n ≤ n')%nat → (m ≤ m')%nat → (spec_score sev n m <= spec_score sev n' m')%Q.
Proof.
  intros Hn Hm. apply round1_mono, Q.min_le_compat_r. unfold spec_raw.
  pose proof (spec_ioc_factor_mono _ _ Hn). pose proof (spec_system_factor_mono _ _ Hm).
  lra.
Qed.

Lemma spec_score_bounds (sev : pystr) (n m : nat) : (1 <= spec_score sev n m <= 10)%Q.
Proof.
  unfold spec_score.
  pose proof (spec_base_bounds sev). pose proof (spec_critical_bonus_bounds sev).
  pose proof (spec_ioc_factor_bounds n). pose proof (spec_system_factor_bounds m).
  pose proof (round1_Z 1) as R1. change (inject_Z 1) with 1%Q in R1.
  pose proof (round1_Z 10) as R10. change (inject_Z 10) with 10%Q in R10.
  split.
  - rewrite <- R1 at 1. apply round1_mono, Q.min_glb; [unfold spec_raw; lra | done].
  - rewrite <- R10 at 2. apply round1_mono, Q.le_min_r.
Qed.

(** The result depends on the report through its severity and the two counts. *)
Lemma calculate_severity_score_counts (r : t) :
  calculate_severity_score r
  = calculate_severity_score
      (report_with (severity r) (length (iocs r)) (length (affected_systems r))).
Proof.
  unfold calculate_severity_score, report_with, len.
  cbn [severity iocs affected_systems set_affected_systems set_iocs fields_of].
  by rewrite !length_replicate.
Qed.

(** ** [str.strip] *)

Lemma lstrip_spec (s : pystr) :
  ∃ pre, s = pre ++ lstrip s
         ∧ Forall (λ c, Py_UNICODE_ISSPACE c = true) pre
         ∧ ∀ c, head (lstrip s) = Some c → Py_UNICODE_ISSPACE c = false.
Proof.
  induction s as [|c s (pre & Hs & Hpre & Hhd)]; simpl.
  - by exists [].
  - destruct (Py_UNICODE_ISSPACE c) eqn:E.
    + exists (c :: pre). split; [by rewrite Hs at 1|]. split; [by constructor | done].
    + exists []. split; [done|]. split; [constructor|]. simpl. by intros ? [= <-].
Qed.

Lemma rstrip_spec (s : pystr) :
  ∃ post, s = rstrip s ++ post
          ∧ Forall (λ c, Py_UNICODE_ISSPACE c = true) post
          ∧ ∀ c, last (rstrip s) = Some c → Py_UNICODE_ISSPACE c = false.
Proof.
  unfold rstrip. destruct (lstrip_spec (reverse s)) as (pre & Hs & Hpre & Hhd).
  exists (reverse pre). split; [|split].
  - by rewrite <- reverse_app, <- Hs, reverse_involutive.
  - by apply Forall_reverse.
  - intros c. rewrite last_reverse. apply Hhd.
Qed.

(** [strip] removes a run of whitespace at each end and nothing else, and
    what is left neither starts nor ends with whitespace. *)
Lemma strip_spec (s : pystr) :
  ∃ pre post, s = pre ++ strip s ++ post
    ∧ Forall (λ c, Py_UNICODE_ISSPACE c = true) pre
    ∧ Forall (λ c, Py_UNICODE_ISSPACE c = true) post
    ∧ (∀ c, head (strip s) = Some c → Py_UNICODE_ISSPACE c = false)
    ∧ (∀ c, last (strip s) = Some c → Py_UNICODE_ISSPACE c = false).
Proof.
  unfold strip.
  destruct (lstrip_spec s) as (pre & Hs & Hpre & Hhd).
  destruct (rstrip_spec (lstrip s)) as (post & Ht & Hpost & Hlast).
  exists pre, post. split; [by rewrite <- Ht|]. split; [done|]. split; [done|].
  split; [|done].
  intros c Hc. apply Hhd. rewrite Ht.
  destruct (rstrip (lstrip s)); [done|]. exact Hc.
Qed.

Lemma str_truthy_false (s : pystr) : str_truthy s = false ↔ s = [].
Proof. by destruct s. Qed.

Lemma str_truthy_true (s : pystr) : str_truthy s = true ↔ s ≠ [].
Proof. by destruct s. Qed.

(** ** Construction *)

Lemma init_collections (rt : Runtime) (fields : t) :
  timeline_events (__init__ rt fields) = timeline_events fields
  ∧ iocs (__init__ rt fields) = iocs fields
  ∧ affected_systems (__init__ rt fields) = affected_systems fields
  ∧ recommendations (__init__ rt fields) = recommendations fields.
Proof.
  unfold __init__, __post_init__.
  destruct (str_truthy (incident_id fields)); simpl;
    destruct (str_truthy (created_at _)); done.
Qed.

(** ** The builder methods, one call and many *)

Lemma run_cons (r : t) (c : call) (cs : list call) : run r (c :: cs) = run (do_call r c) cs.
Proof. done. Qed.

Lemma run_app (r : t) (cs cs' : list call) : run r (cs ++ cs') = run (run r cs) cs'.
Proof. apply foldl_app. Qed.

Lemma add_recommendation_cases (r : t) (s : pystr) :
  add_recommendation r s
  = if decide (strip s = []) then r
    else set_recommendations r (recommendations r ++ [strip s]).
Proof.
  unfold add_recommendation. case_decide as H.
  - by rewrite (proj2 (str_truthy_false _) H).
  - by rewrite (proj2 (str_truthy_true _) H).
Qed.

Lemma run_iocs (r : t) (cs : list call) : iocs (run r cs) = iocs r ++ added_iocs cs.
Proof.
  revert r. induction cs as [|c cs IH]; intros r.
  - simpl. by rewrite app_nil_r.
  - rewrite run_cons, IH. destruct c; simpl; try done.
    + by rewrite <- app_assoc.
    + unfold add_recommendation. by destruct (str_truthy _).
Qed.

Lemma run_affected_systems (r : t) (cs : list call) :
  affected_systems (run r cs) = affected_systems r ++ added_systems cs.
Proof.
  revert r. induction cs as [|c cs IH]; intros r.
  - simpl. by rewrite app_nil_r.
  - rewrite run_cons, IH. destruct c; simpl; try done.
    + by rewrite <- app_assoc.
    + unfold add_recommendation. by destruct (str_truthy _).
Qed.

Lemma run_recommendations (r : t) (cs : list call) :
  recommendations (run r cs) = recommendations r ++ added_recommendations cs.
Proof.
  revert r. induction cs as [|c cs IH]; intros r.
  - simpl. by rewrite app_nil_r.
  - rewrite run_cons, IH. destruct c; simpl; try done.
    unfold add_recommendation, added_recommendations. simpl.
    destruct (str_truthy _); simpl; [|done]. by rewrite <- app_assoc.
Qed.

Lemma added_recommendations_nonempty (cs : list call) : [] ∉ added_recommendations cs.
Proof.
  unfold added_recommendations. rewrite list_elem_of_omap. intros (c & _ & Hc).
  destruct c; try done. destruct (strip _); done.
Qed.

Lemma run_timeline_with_key (k : pystr) (r : t) (cs : list call) :
  with_key TimelineEvent.timestamp k (timeline_events (run r cs))
  = with_key TimelineEvent.timestamp k (timeline_events r ++ added_events cs).
Proof.
  revert r. induction cs as [|c cs IH]; intros r.
  - simpl. by rewrite app_nil_r.
  - rewrite run_cons, IH, !with_key_app. destruct c; simpl; try done.
    + rewrite with_key_list_sort, with_key_app, <- app_assoc. f_equal.
      symmetry. apply (with_key_app TimelineEvent.timestamp k [_]).
    + unfold add_recommendation. by destruct (str_truthy _).
Qed.

Lemma run_timeline_sorted (r : t) (cs : list call) :
  sorted_by TimelineEvent.timestamp (timeline_events r) →
  sorted_by TimelineEvent.timestamp (timeline_events (run r cs)).
Proof.
  revert r. induction cs as [|c cs IH]; intros r Hr; [done|].
  rewrite run_cons. apply IH. destruct c; simpl; try done.
  - apply list_sort_sorted.
  - unfold add_recommendation. by destruct (str_truthy _).
Qed.

Lemma run_timeline_Permutation (r : t) (cs : list call) :
  timeline_events (run r cs) ≡ₚ timeline_events r ++ added_events cs.
Proof.
  revert r. induction cs as [|c cs IH]; intros r.
  - simpl. by rewrite app_nil_r.
  - rewrite run_cons, IH. destruct c; simpl; try done.
    + by rewrite list_sort_Permutation, <- app_assoc.
    + unfold add_recommendation. by destruct (str_truthy _).
Qed.

(** ** Serialization *)

Lemma TimelineEvent_of_to_dict (e : TimelineEvent.t) :
  TimelineEvent_of_dict (TimelineEvent.to_dict e) = Some e.
Proof. by destruct e. Qed.

Lemma IOC_of_to_dict (i : IOC.t) : IOC_of_dict (IOC.to_dict i) = Some i.
Proof. by destruct i. Qed.

Lemma AffectedSystem_of_to_dict (a : AffectedSystem.t) :
  AffectedSystem_of_dict (AffectedSystem.to_dict a) = Some a.
Proof. by destruct a. Qed.

Lemma mapM_decode {A} (dec : pyval → option A) (enc : A → pyval) (l : list A) :
  (∀ x, dec (enc x) = Some x) → mapM dec (enc <$> l) = Some l.
Proof.
  intros H. induction l as [|x l IH]; [done|].
  rewrite fmap_cons. simpl. rewrite H. simpl. by rewrite IH.
Qed.

Lemma to_dict_timeline (r : t) :
  read_list TimelineEvent_of_dict (to_dict r) "timeline" = Some (timeline_events r).
Proof.
  unfold read_list. change (list_item (to_dict r) "timeline")
    with (Some (TimelineEvent.to_dict <$> timeline_events r)).
  simpl. apply mapM_decode, TimelineEvent_of_to_dict.
Qed.

Lemma to_dict_iocs (r : t) : read_list IOC_of_dict (to_dict r) "iocs" = Some (iocs r).
Proof.
  unfold read_list. change (list_item (to_dict r) "iocs") with (Some (IOC.to_dict <$> iocs r)).
  simpl. apply mapM_decode, IOC_of_to_dict.
Qed.

Lemma to_dict_affected_systems (r : t) :
  read_list AffectedSystem_of_dict (to_dict r) "affected_systems" = Some (affected_systems r).
Proof.
  unfold read_list. change (list_item (to_dict r) "affected_systems")
    with (Some (AffectedSystem.to_dict <$> affected_systems r)).
  simpl. apply mapM_decode, AffectedSystem_of_to_dict.
Qed.

Lemma to_dict_recommendations (r : t) :
  read_list str_of_val (to_dict r) "recommendations" = Some (recommendations r).
Proof.
  unfold read_list. change (list_item (to_dict r) "recommendations")
    with (Some (VStr <$> recommendations r)).
  simpl. by apply mapM_decode.
Qed.

(** ** Severities the weight table does not know *)

(** Two reports score alike when they agree on the weight of their
    severity, on being "Critical", and on the two counts. *)
Lemma calculate_severity_score_ext (r r' : t) :
  default 2 (SEVERITY_WEIGHTS !! severity r) = default 2 (SEVERITY_WEIGHTS !! severity r') →
  (severity r = py "Critical" ↔ severity r' = py "Critical") →
  length (iocs r) = length (iocs r') →
  length (affected_systems r) = length (affected_systems r') →
  calculate_severity_score r = calculate_severity_score r'.
Proof.
  unfold calculate_severity_score, len. intros -> Hc -> ->.
  destruct (decide (severity r = _)), (decide (severity r' = _)); tauto.
Qed.

Lemma unknown_not_Critical (sev : pystr) : ¬ known_severity sev → sev ≠ py "Critical".
Proof. unfold known_severity. tauto. Qed.

Lemma calculate_severity_score_unknown (r r' : t) :
  ¬ known_severity (severity r) → ¬ known_severity (severity r') →
  length (iocs r) = length (iocs r') →
  length (affected_systems r) = length (affected_systems r') →
  calculate_severity_score r = calculate_severity_score r'.
Proof.
  intros Hr Hr'. apply calculate_severity_score_ext.
  - by rewrite !weight_unknown.
  - apply unknown_not_Critical in Hr, Hr'. tauto.
Qed.

Lemma calculate_severity_score_as_Medium (r : t) :
  ¬ known_severity (severity r) →
  calculate_severity_score r
  = calculate_severity_score
      (report_with (py "Medium") (length (iocs r)) (length (affected_systems r))).
Proof.
  intros Hr. apply calculate_severity_score_ext.
  - by rewrite weight_unknown.
  - apply unknown_not_Critical in Hr. split; [tauto | discriminate].
  - simpl. by rewrite length_replicate.
  - simpl. by rewrite length_replicate.
Qed.

Lemma unknown_components (r : t) :
  ¬ known_severity (severity r) →
  ∃ score rating ioc_factor system_factor,
    calculate_severity_score r
    = score_dict score rating (PyInt 2) ioc_factor system_factor (PyInt 0)
    ∧ to_Q score
      == round1 (Qmin (2 + spec_ioc_factor (length (iocs r))
                         + spec_system_factor (length (affected_systems r))) 10).
Proof.
  intros Hr. destruct (calculate_severity_score_components r) as (x & i & s & H & Hx & _).
  rewrite (weight_unknown _ Hr) in H.
  pose proof (unknown_not_Critical _ Hr) as Hc.
  destruct (decide (severity r = py "Critical")); [done|].
  exists x, (spec_rating (to_Q x)), i, s. split; [done|].
  rewrite Hx. unfold spec_score, spec_raw, spec_critical_bonus.
  rewrite <- to_Q_base, (weight_unknown _ Hr). simpl to_Q.
  destruct (decide (severity r = py "Critical")); [done|].
  apply round1_proper. change (inject_Z 2) with 2%Q.
  apply Q.min_compat; [ring | reflexivity].
Qed.

Lemma miscased_unknown (sev k : pystr) :
  known_severity k → same_letters sev k → sev ≠ k → ¬ known_severity sev.
Proof.
  unfold known_severity, same_letters.
  intros [-> | [-> | [-> | ->]]] Hs Hne [-> | [-> | [-> | ->]]]; done.
Qed.

(* ================================================================= *)
(** * The claims of the specification *)

(** C1. For every report, [calculate_severity_score] returns a dict with
    the keys score, rating and breakdown in which
    score = round(min(base + ioc_factor + system_factor + critical_bonus, 10), 1),
    with ioc_factor = min(0.5 x number of IOCs, 3),
    system_factor = min(0.75 x number of affected systems, 3),
    critical_bonus = 1.5 for severity "Critical" and 0 otherwise, and base the
    weight of the severity; the breakdown holds the four components, the
    two factors rounded to one decimal place. *)
Theorem calculate_severity_score_formula (r : t) :
  ∃ score rating base ioc_factor system_factor critical_bonus,
    calculate_severity_score r
    = score_dict score rating base ioc_factor system_factor critical_bonus
    ∧ to_Q score
      == round1 (Qmin (spec_base (severity r)
                       + Qmin (inject_Z (Z.of_nat (length (iocs r))) * (1 # 2)) 3
                       + Qmin (inject_Z (Z.of_nat (length (affected_systems r))) * (3 # 4)) 3
                       + (if decide (severity r = py "Critical") then 3 # 2 else 0))
                      10)
    ∧ to_Q base == spec_base (severity r)
    ∧ to_Q ioc_factor
      == round1 (Qmin (inject_Z (Z.of_nat (length (iocs r))) * (1 # 2)) 3)
    ∧ to_Q system_factor
      == round1 (Qmin (inject_Z (Z.of_nat (length (affected_systems r))) * (3 # 4)) 3)
    ∧ to_Q critical_bonus
      == (if decide (severity r = py "Critical") then 3 # 2 else 0).
Proof.
  destruct (calculate_severity_score_components r) as (x & i & s & H & Hx & Hi & Hs).
  eexists x, _, _, i, s, _. split; [exact H|].
  split; [exact Hx|]. split; [by rewrite to_Q_base|]. split; [exact Hi|].
  split; [exact Hs|]. by case_decide.
Qed.

(** C2. The rating is "CRITICAL" exactly when score >= 8, "HIGH" exactly
    when 6 <= score < 8, "MEDIUM" exactly when 4 <= score < 6, and "LOW"
    exactly when score < 4. *)
Theorem rating_thresholds (r : t) :
  ∃ score rating base ioc_factor system_factor critical_bonus,
    calculate_severity_score r
    = score_dict score rating base ioc_factor system_factor critical_bonus
    ∧ (rating = py "CRITICAL" ↔ (8 <= to_Q score)%Q)
    ∧ (rating = py "HIGH" ↔ (6 <= to_Q score < 8)%Q)
    ∧ (rating = py "MEDIUM" ↔ (4 <= to_Q score < 6)%Q)
    ∧ (rating = py "LOW" ↔ (to_Q score < 4)%Q).
Proof.
  destruct (calculate_severity_score_components r) as (x & i & s & H & _).
  eexists x, _, _, i, s, _. split; [exact H|]. apply spec_rating_cases.
Qed.

(** C3. Take a report whose timeline is empty and any sequence of builder
    calls.  After each call (so, after the first [k] calls, for every
    [k]) the timeline is sorted in ascending order of the timestamp
    strings, it holds exactly the events added so far, and the events of
    any one timestamp stand in the order in which they were added. *)
Theorem timeline_sorted_stable (r0 : t) (cs : list call) (k : nat) :
  timeline_events r0 = [] →
  sorted_by TimelineEvent.timestamp (timeline_events (run r0 (take k cs)))
  ∧ timeline_events (run r0 (take k cs)) ≡ₚ added_events (take k cs)
  ∧ ∀ ts, with_key TimelineEvent.timestamp ts (timeline_events (run r0 (take k cs)))
          = with_key TimelineEvent.timestamp ts (added_events (take k cs)).
Proof.
  intros H0. split; [|split].
  - apply run_timeline_sorted. rewrite H0. constructor.
  - by rewrite run_timeline_Permutation, H0.
  - intros ts. by rewrite run_timeline_with_key, H0.
Qed.

Lemma timeline_sorted_stable_witness :
  timeline_events sample_fields = []
  ∧ sorted_by TimelineEvent.timestamp (timeline_events (run sample_fields (take 5 sample_calls)))
  ∧ timeline_events (run sample_fields (take 5 sample_calls))
    ≡ₚ added_events (take 5 sample_calls)
  ∧ ∀ ts, with_key TimelineEvent.timestamp ts
            (timeline_events (run sample_fields (take 5 sample_calls)))
          = with_key TimelineEvent.timestamp ts (added_events (take 5 sample_calls)).
Proof.
  split; [reflexivity|].
  apply (timeline_sorted_stable sample_fields sample_calls 5). reflexivity.
Defined.

(** C4. The score does not decrease when the number of IOCs or the number
    of affected systems grows and the severity stays the same, and it never
    exceeds 10; severity "Medium" with 10 IOCs and no system gives 5.0,
    rated MEDIUM, and severity "Critical" with no IOC and no system gives
    5.5, rated MEDIUM. *)
Theorem score_monotone_clamped :
  (∀ r r' : t,
     severity r = severity r' →
     (length (iocs r) ≤ length (iocs r'))%nat →
     (length (affected_systems r) ≤ length (affected_systems r'))%nat →
     ∃ s s', num_item (calculate_severity_score r) "score" = Some s
             ∧ num_item (calculate_severity_score r') "score" = Some s'
             ∧ (to_Q s <= to_Q s' <= 10)%Q)
  ∧ (∀ r : t,
       severity r = py "Medium" → length (iocs r) = 10%nat →
       length (affected_systems r) = 0%nat →
       num_item (calculate_severity_score r) "score" = Some (PyFloat 5)
       ∧ str_item (calculate_severity_score r) "rating" = Some (py "MEDIUM"))
  ∧ (∀ r : t,
       severity r = py "Critical" → length (iocs r) = 0%nat →
       length (affected_systems r) = 0%nat →
       num_item (calculate_severity_score r) "score" = Some (PyFloat (11 # 2))
       ∧ str_item (calculate_severity_score r) "rating" = Some (py "MEDIUM")).
Proof.
  split; [|split].
  - intros r r' Hsev Hn Hm.
    destruct (score_value r) as (s & Hs & Hq), (score_value r') as (s' & Hs' & Hq').
    exists s, s'. split; [done|]. split; [done|]. rewrite Hq, Hq', Hsev. split.
    + by apply spec_score_mono.
    + apply spec_score_bounds.
  - intros r Hsev Hn Hm. rewrite calculate_severity_score_counts, Hsev, Hn, Hm.
    split; by vm_compute.
  - intros r Hsev Hn Hm. rewrite calculate_severity_score_counts, Hsev, Hn, Hm.
    split; by vm_compute.
Qed.

Lemma score_monotone_clamped_witness :
  (∃ s s', num_item (calculate_severity_score (report_with (py "High") 1 2)) "score" = Some s
           ∧ num_item (calculate_severity_score (report_with (py "High") 3 2)) "score" = Some s'
           ∧ (to_Q s <= to_Q s' <= 10)%Q)
  ∧ num_item (calculate_severity_score (report_with (py "Medium") 10 0)) "score"
    = Some (PyFloat 5)
  ∧ num_item (calculate_severity_score (report_with (py "Critical") 0 0)) "score"
    = Some (PyFloat (11 # 2)).
Proof.
  destruct score_monotone_clamped as (Hmono & Hmed & Hcrit).
  split; [|split].
  - apply Hmono; [reflexivity | vm_compute; lia | vm_compute; lia].
  - apply Hmed; reflexivity.
  - apply Hcrit; reflexivity.
Defined.

(** C5. [s.strip()] is [s] without the whitespace at its two ends.
    [add_recommendation(s)] leaves the report as it is when [s]
    stripped of whitespace is empty, and otherwise appends the stripped
    string and changes nothing else; so a report whose recommendations hold
    no empty string holds none after any sequence of builder calls, and a
    report constructed with no recommendation never holds one.  In
    particular the empty string and the string of three spaces add nothing, and
    "  Patch CVE-1234  " adds "Patch CVE-1234". *)
Theorem add_recommendation_trims (r : t) (s : pystr) (cs : list call) :
  (∃ pre post, s = pre ++ strip s ++ post
     ∧ Forall (λ c, Py_UNICODE_ISSPACE c = true) pre
     ∧ Forall (λ c, Py_UNICODE_ISSPACE c = true) post
     ∧ (∀ c, head (strip s) = Some c → Py_UNICODE_ISSPACE c = false)
     ∧ (∀ c, last (strip s) = Some c → Py_UNICODE_ISSPACE c = false))
  ∧ (strip s = [] → add_recommendation r s = r)
  ∧ (strip s ≠ [] →
     add_recommendation r s = set_recommendations r (recommendations r ++ [strip s]))
  ∧ ([] ∉ recommendations r → [] ∉ recommendations (run r cs))
  ∧ (recommendations r = [] → ∀ rt, [] ∉ recommendations (run (__init__ rt r) cs))
  ∧ add_recommendation r (py "") = r
  ∧ add_recommendation r (py "   ") = r
  ∧ recommendations (add_recommendation r (py "  Patch CVE-1234  "))
    = recommendations r ++ [py "Patch CVE-1234"].
Proof.
  split; [apply strip_spec|].
  split; [|split; [|split; [|split; [|split; [|split]]]]].
  - intros H. rewrite add_recommendation_cases. by case_decide.
  - intros H. rewrite add_recommendation_cases. by case_decide.
  - intros H. rewrite run_recommendations, elem_of_app.
    intros [?|?]; [done|]. by eapply added_recommendations_nonempty.
  - intros H rt. destruct (init_collections rt r) as (_ & _ & _ & Hrec).
    rewrite run_recommendations, Hrec, H. apply added_recommendations_nonempty.
  - done.
  - done.
  - done.
Qed.

Lemma add_recommendation_trims_witness :
  add_recommendation sample_fields (py " ") = sample_fields
  ∧ add_recommendation sample_fields (py " Reset passwords ")
    = set_recommendations sample_fields [py "Reset passwords"]
  ∧ ([] ∉ recommendations (run sample_fields sample_calls))
  ∧ ([] ∉ recommendations (run (__init__ sample_runtime sample_fields) sample_calls)).
Proof.
  destruct (add_recommendation_trims sample_fields (py " ") sample_calls)
    as (_ & Hblank & _ & Hinv & Hnew & _).
  destruct (add_recommendation_trims sample_fields (py " Reset passwords ") [])
    as (_ & _ & Happend & _).
  split; [|split; [|split]].
  - apply Hblank. reflexivity.
  - apply Happend. discriminate.
  - apply Hinv. simpl. apply not_elem_of_nil.
  - apply Hnew. reflexivity.
Defined.

(** C6. For a severity outside {"Low", "Medium", "High", "Critical"},
    [calculate_severity_score] still returns its dict: the base weight is 2,
    there is no bonus, and the result is the one of the same report with
    severity "Medium"; [to_dict] gives the severity string back as it is. *)
Theorem unknown_severity_scores_as_medium (r : t) :
  ¬ known_severity (severity r) →
  (∃ score rating ioc_factor system_factor,
     calculate_severity_score r
     = score_dict score rating (PyInt 2) ioc_factor system_factor (PyInt 0)
     ∧ to_Q score
       == round1 (Qmin (2 + spec_ioc_factor (length (iocs r))
                          + spec_system_factor (length (affected_systems r))) 10))
  ∧ calculate_severity_score r
    = calculate_severity_score
        (report_with (py "Medium") (length (iocs r)) (length (affected_systems r)))
  ∧ str_item (to_dict r) "severity" = Some (severity r)
  ∧ item (to_dict r) "severity_score" = Some (calculate_severity_score r).
Proof.
  intros Hr. split; [by apply unknown_components|].
  split; [by apply calculate_severity_score_as_Medium|]. done.
Qed.

Lemma unknown_severity_scores_as_medium_witness :
  ¬ known_severity (py "Catastrophic")
  ∧ calculate_severity_score (report_with (py "Catastrophic") 2 1)
    = calculate_severity_score (report_with (py "Medium") 2 1)
  ∧ str_item (to_dict (report_with (py "Catastrophic") 2 1)) "severity"
    = Some (py "Catastrophic").
Proof.
  assert (¬ known_severity (py "Catastrophic")) as Hu.
  { intros [H|[H|[H|H]]]; discriminate H. }
  split; [exact Hu|].
  destruct (unknown_severity_scores_as_medium (report_with (py "Catastrophic") 2 1) Hu)
    as (_ & Hm & Hs & _).
  split; [exact Hm | exact Hs].
Defined.

(** C7. A report constructed with a non-empty [incident_id] and a
    non-empty [created_at] keeps both as supplied, and nothing else changes;
    each of the two is generated exactly when it was not supplied. *)
Theorem post_init_keeps_supplied (rt : Runtime) (fields : t) :
  (incident_id fields ≠ [] → created_at fields ≠ [] → __init__ rt fields = fields)
  ∧ (incident_id fields ≠ [] → incident_id (__init__ rt fields) = incident_id fields)
  ∧ (created_at fields ≠ [] → created_at (__init__ rt fields) = created_at fields)
  ∧ (incident_id fields = [] →
     incident_id (__init__ rt fields) = _generate_incident_id rt fields)
  ∧ (created_at fields = [] → created_at (__init__ rt fields) = utcnow_created rt).
Proof.
  unfold __init__, __post_init__.
  destruct fields as [? ? ? ? ? ? ? ? ? ? id cr ? ? ? ?]; simpl.
  destruct id, cr; simpl; repeat split; intros; done.
Qed.

Lemma post_init_keeps_supplied_witness :
  __init__ sample_runtime sample_saved = sample_saved
  ∧ incident_id (__init__ sample_runtime sample_saved) = py "IR-20250101-BEEF"
  ∧ created_at (__init__ sample_runtime sample_saved) = py "2025-01-01 00:00:00 UTC"
  ∧ incident_id (__init__ sample_runtime sample_fields) = py "IR-20250211-A3F7"
  ∧ created_at (__init__ sample_runtime sample_fields) = py "2025-02-11 10:15:00 UTC".
Proof.
  destruct (post_init_keeps_supplied sample_runtime sample_saved) as (Hall & Hid & Hcr & _).
  destruct (post_init_keeps_supplied sample_runtime sample_fields) as (_ & _ & _ & Hgi & Hgc).
  split; [apply Hall; discriminate|].
  split; [rewrite Hid; [reflexivity | discriminate]|].
  split; [rewrite Hcr; [reflexivity | discriminate]|].
  split; [rewrite Hgi; reflexivity | rewrite Hgc; reflexivity].
Defined.

(** C8. For every report, [to_dict] returns a dict that holds the identity
    and every scalar field, the four lifecycle dates under "dates", the
    severity score computed from the current state, and the four
    collections, which read back as the stored lists, entry for entry and
    in the stored order.  After any sequence of builder calls, the IOCs,
    affected systems and recommendations read back are the old ones followed
    by the added ones in the order of the calls, and the timeline read back
    holds the old and the added events, those of equal timestamp in that
    same order. *)
Theorem to_dict_round_trip (r : t) (cs : list call) :
  str_item (to_dict r) "incident_id" = Some (incident_id r)
  ∧ str_item (to_dict r) "title" = Some (title r)
  ∧ str_item (to_dict r) "severity" = Some (severity r)
  ∧ str_item (to_dict r) "category" = Some (category r)
  ∧ str_item (to_dict r) "analyst" = Some (analyst r)
  ∧ str_item (to_dict r) "description" = Some (description r)
  ∧ str_item (to_dict r) "created_at" = Some (created_at r)
  ∧ str_item (to_dict r) "executive_summary" = Some (executive_summary r)
  ∧ item (to_dict r) "dates"
    = Some (VDict [ (py "detection", VStr (detection_date r));
                    (py "containment", VStr (containment_date r));
                    (py "eradication", VStr (eradication_date r));
                    (py "recovery", VStr (recovery_date r)) ])
  ∧ item (to_dict r) "severity_score" = Some (calculate_severity_score r)
  ∧ read_list TimelineEvent_of_dict (to_dict r) "timeline" = Some (timeline_events r)
  ∧ read_list IOC_of_dict (to_dict r) "iocs" = Some (iocs r)
  ∧ read_list AffectedSystem_of_dict (to_dict r) "affected_systems"
    = Some (affected_systems r)
  ∧ read_list str_of_val (to_dict r) "recommendations" = Some (recommendations r)
  ∧ read_list IOC_of_dict (to_dict (run r cs)) "iocs" = Some (iocs r ++ added_iocs cs)
  ∧ read_list AffectedSystem_of_dict (to_dict (run r cs)) "affected_systems"
    = Some (affected_systems r ++ added_systems cs)
  ∧ read_list str_of_val (to_dict (run r cs)) "recommendations"
    = Some (recommendations r ++ added_recommendations cs)
  ∧ ∃ timeline,
      read_list TimelineEvent_of_dict (to_dict (run r cs)) "timeline" = Some timeline
      ∧ timeline ≡ₚ timeline_events r ++ added_events cs
      ∧ ∀ ts, with_key TimelineEvent.timestamp ts timeline
              = with_key TimelineEvent.timestamp ts (timeline_events r ++ added_events cs).
Proof.
  repeat (split; [done|]).
  split; [apply to_dict_timeline|]. split; [apply to_dict_iocs|].
  split; [apply to_dict_affected_systems|]. split; [apply to_dict_recommendations|].
  split; [by rewrite to_dict_iocs, run_iocs|].
  split; [by rewrite to_dict_affected_systems, run_affected_systems|].
  split; [by rewrite to_dict_recommendations, run_recommendations|].
  exists (timeline_events (run r cs)). split; [apply to_dict_timeline|].
  split; [apply run_timeline_Permutation|]. intros ts. apply run_timeline_with_key.
Qed.

(** C9. For every report, whatever its severity string and the numbers of
    IOCs and affected systems, the score lies between 1 and 10. *)
Theorem score_range (r : t) :
  ∃ score, num_item (calculate_severity_score r) "score" = Some score
           ∧ (1 <= to_Q score <= 10)%Q.
Proof.
  destruct (score_value r) as (s & Hs & Hq). exists s. split; [done|].
  rewrite Hq. apply spec_score_bounds.
Qed.

(** C10. The severity is matched exactly, case included: a severity that is
    a known level written in another case, such as "critical", gets the
    base weight 2 and no bonus, and the report scores as a report with
    the same counts and a severity that no level resembles. *)
Theorem severity_match_case_sensitive (r r' : t) (level : pystr) :
  known_severity level →
  same_letters (severity r) level → severity r ≠ level →
  ¬ known_severity (severity r') →
  length (iocs r) = length (iocs r') →
  length (affected_systems r) = length (affected_systems r') →
  (∃ score rating ioc_factor system_factor,
     calculate_severity_score r
     = score_dict score rating (PyInt 2) ioc_factor system_factor (PyInt 0))
  ∧ calculate_severity_score r = calculate_severity_score r'.
Proof.
  intros Hk Hs Hne Hr' Hn Hm.
  pose proof (miscased_unknown _ _ Hk Hs Hne) as Hr. split.
  - destruct (unknown_components r Hr) as (x & rt & i & s & H & _). by exists x, rt, i, s.
  - by apply calculate_severity_score_unknown.
Qed.

Lemma severity_match_case_sensitive_witness :
  (∃ score rating ioc_factor system_factor,
     calculate_severity_score (report_with (py "critical") 3 2)
     = score_dict score rating (PyInt 2) ioc_factor system_factor (PyInt 0))
  ∧ calculate_severity_score (report_with (py "critical") 3 2)
    = calculate_severity_score (report_with (py "n/a") 3 2).
Proof.
  apply (severity_match_case_sensitive _ _ (py "Critical")).
  - right; right; right; reflexivity.
  - reflexivity.
  - discriminate.
  - intros [H|[H|[H|H]]]; discriminate H.
  - reflexivity.
  - reflexivity.
Defined.

(* ================================================================= *)
(** * Further properties of the module *)

(** ** What the builder methods leave alone *)

Lemma do_call_scalars (r : t) (c : call) : scalars (do_call r c) = scalars r.
Proof.
  destruct c; simpl; try done.
  unfold add_recommendation. by destruct (str_truthy _).
Qed.

(** X1. No sequence of builder calls changes the identity of a report, its
    creation time, or any of the fields given at construction. *)
Theorem builder_calls_keep_scalars (r : t) (cs : list call) :
  scalars (run r cs) = scalars r.
Proof.
  revert r. induction cs as [|c cs IH]; intros r; [done|].
  by rewrite run_cons, IH, do_call_scalars.
Qed.

Lemma run_severity (r : t) (cs : list call) : severity (run r cs) = severity r.
Proof.
  revert r. induction cs as [|c cs IH]; intros r; [done|].
  rewrite run_cons, IH. destruct c; simpl; try done.
  unfold add_recommendation. by destruct (str_truthy _).
Qed.

(** ** The score along the life of a report *)

(** X2. Adding events, IOCs, systems or recommendations never lowers the score. *)
Theorem score_never_drops (r : t) (cs : list call) :
  ∃ s s', num_item (calculate_severity_score r) "score" = Some s
          ∧ num_item (calculate_severity_score (run r cs)) "score" = Some s'
          ∧ (to_Q s <= to_Q s')%Q.
Proof.
  destruct (score_value r) as (s & Hs & Hq).
  destruct (score_value (run r cs)) as (s' & Hs' & Hq').
  exists s, s'. split; [done|]. split; [done|].
  rewrite Hq, Hq', run_severity, run_iocs, run_affected_systems, !length_app.
  apply spec_score_mono; lia.
Qed.

Lemma spec_base_value (level : SeverityLevel.t) :
  spec_base (SeverityLevel.value level) = inject_Z (Z.of_nat (S (SeverityLevel.rank level))).
Proof. by destruct level. Qed.

Lemma spec_critical_bonus_value (level : SeverityLevel.t) :
  spec_critical_bonus (SeverityLevel.value level)
  = (match level with SeverityLevel.CRITICAL => 3 # 2 | _ => 0 end)%Q.
Proof. by destruct level. Qed.

(** X3. With the same numbers of IOCs and of affected systems, a higher
    severity level never gives a lower score. *)
Theorem score_monotone_in_level (r r' : t) (level level' : SeverityLevel.t) :
  severity r = SeverityLevel.value level →
  severity r' = SeverityLevel.value level' →
  (SeverityLevel.rank level ≤ SeverityLevel.rank level')%nat →
  length (iocs r) = length (iocs r') →
  length (affected_systems r) = length (affected_systems r') →
  ∃ s s', num_item (calculate_severity_score r) "score" = Some s
          ∧ num_item (calculate_severity_score r') "score" = Some s'
          ∧ (to_Q s <= to_Q s')%Q.
Proof.
  intros Hl Hl' Hrank Hn Hm.
  destruct (score_value r) as (s & Hs & Hq), (score_value r') as (s' & Hs' & Hq').
  exists s, s'. split; [done|]. split; [done|].
  rewrite Hq, Hq', Hl, Hl', Hn, Hm. unfold spec_score, spec_raw.
  apply round1_mono, Q.min_le_compat_r.
  rewrite !spec_base_value, !spec_critical_bonus_value.
  assert (inject_Z (Z.of_nat (S (SeverityLevel.rank level)))
          <= inject_Z (Z.of_nat (S (SeverityLevel.rank level'))))%Q as Hb.
  { rewrite <- Zle_Qle. lia. }
  assert ((match level with SeverityLevel.CRITICAL => 3 # 2 | _ => 0 end)
          <= (match level' with SeverityLevel.CRITICAL => 3 # 2 | _ => 0 end))%Q as Hc.
  { destruct level, level'; simpl in Hrank; try lia; by vm_compute. }
  lra.
Qed.

Lemma score_monotone_in_level_witness :
  ∃ s s', num_item (calculate_severity_score (report_with (py "Medium") 2 1)) "score" = Some s
          ∧ num_item (calculate_severity_score (report_with (py "Critical") 2 1)) "score"
            = Some s'
          ∧ (to_Q s <= to_Q s')%Q.
Proof.
  apply (score_monotone_in_level _ _ SeverityLevel.MEDIUM SeverityLevel.CRITICAL);
    [reflexivity | reflexivity | simpl; lia | reflexivity | reflexivity].
Defined.

(** ** Where the score stops growing *)

Lemma spec_rating_comp (q q' : Q) : q == q' → spec_rating q = spec_rating q'.
Proof.
  intros H. unfold spec_rating.
  assert (∀ k, Qle_bool k q = Qle_bool k q') as Hk.
  { intros k. apply eq_true_iff_eq. rewrite !Qle_bool_iff. by rewrite H. }
  by rewrite !Hk.
Qed.

Lemma spec_ioc_factor_cap (n : nat) : (6 ≤ n)%nat → spec_ioc_factor n == 3.
Proof.
  intros H. apply Q.min_r.
  assert (inject_Z 6 <= inject_Z (Z.of_nat n))%Q as Hq by (rewrite <- Zle_Qle; lia).
  change (inject_Z 6) with 6%Q in Hq. lra.
Qed.

Lemma spec_system_factor_cap (m : nat) : (4 ≤ m)%nat → spec_system_factor m == 3.
Proof.
  intros H. apply Q.min_r.
  assert (inject_Z 4 <= inject_Z (Z.of_nat m))%Q as Hq by (rewrite <- Zle_Qle; lia).
  change (inject_Z 4) with 4%Q in Hq. lra.
Qed.

Lemma score_and_rating (r : t) :
  ∃ s, num_item (calculate_severity_score r) "score" = Some s
       ∧ str_item (calculate_severity_score r) "rating" = Some (spec_rating (to_Q s))
       ∧ to_Q s == spec_score (severity r) (length (iocs r)) (length (affected_systems r)).
Proof.
  destruct (calculate_severity_score_components r) as (s & i & y & H & Hs & _).
  exists s. by rewrite H.
Qed.

(** X4. From six IOCs and four affected systems on, further IOCs and systems
    change neither the value of the score nor the rating. *)
Theorem score_saturates (r r' : t) :
  severity r = severity r' →
  (6 ≤ length (iocs r))%nat → (6 ≤ length (iocs r'))%nat →
  (4 ≤ length (affected_systems r))%nat → (4 ≤ length (affected_systems r'))%nat →
  ∃ s s', num_item (calculate_severity_score r) "score" = Some s
          ∧ num_item (calculate_severity_score r') "score" = Some s'
          ∧ to_Q s == to_Q s'
          ∧ str_item (calculate_severity_score r) "rating"
            = str_item (calculate_severity_score r') "rating".
Proof.
  intros Hsev Hn Hn' Hm Hm'.
  destruct (score_and_rating r) as (s & Hs & Hr & Hq).
  destruct (score_and_rating r') as (s' & Hs' & Hr' & Hq').
  assert (to_Q s == to_Q s') as Heq.
  { rewrite Hq, Hq', Hsev. unfold spec_score, spec_raw.
    by rewrite !spec_ioc_factor_cap, !spec_system_factor_cap. }
  exists s, s'. split; [done|]. split; [done|]. split; [done|].
  rewrite Hr, Hr'. f_equal. by apply spec_rating_comp.
Qed.

Lemma score_saturates_witness :
  ∃ s s', num_item (calculate_severity_score (report_with (py "High") 6 4)) "score" = Some s
          ∧ num_item (calculate_severity_score (report_with (py "High") 40 9)) "score"
            = Some s'
          ∧ to_Q s == to_Q s'
          ∧ str_item (calculate_severity_score (report_with (py "High") 6 4)) "rating"
            = str_item (calculate_severity_score (report_with (py "High") 40 9)) "rating".
Proof.
  apply score_saturates; [reflexivity | vm_compute; lia ..].
Defined.

(** ** The Python type of the score *)

Lemma is_int_py_add (a b : pynum) : is_int (py_add a b) = is_int a && is_int b.
Proof. by destruct a, b. Qed.

Lemma is_int_py_round (x : pynum) (d : nat) : is_int (py_round x d) = is_int x.
Proof. by destruct x. Qed.

Lemma ioc_factor_type (n : nat) :
  is_int (py_min (py_mul (PyInt (Z.of_nat n)) (PyFloat (1 # 2))) (PyInt 3))
  = bool_decide (6 < n)%nat.
Proof.
  unfold py_min. destruct (py_lt _ _) eqn:E.
  - apply py_lt_spec in E. rewrite to_Q_py_mul in E. simpl in E.
    assert (inject_Z 6 < inject_Z (Z.of_nat n))%Q as Hq.
    { change (inject_Z 6) with 6%Q. change (inject_Z 3) with 3%Q in E. lra. }
    rewrite <- Zlt_Qlt in Hq. symmetry. apply bool_decide_eq_true. lia.
  - simpl. symmetry. apply bool_decide_eq_false. intros Hn.
    apply not_true_iff_false in E. apply E, py_lt_spec. rewrite to_Q_py_mul. simpl.
    assert (inject_Z 6 < inject_Z (Z.of_nat n))%Q as Hq by (rewrite <- Zlt_Qlt; lia).
    change (inject_Z 6) with 6%Q in Hq. change (inject_Z 3) with 3%Q. lra.
Qed.

Lemma system_factor_type (m : nat) :
  is_int (py_min (py_mul (PyInt (Z.of_nat m)) (PyFloat (3 # 4))) (PyInt 3))
  = bool_decide (4 < m)%nat.
Proof.
  unfold py_min. destruct (py_lt _ _) eqn:E.
  - apply py_lt_spec in E. rewrite to_Q_py_mul in E. simpl in E.
    assert (inject_Z 4 < inject_Z (Z.of_nat m))%Q as Hq.
    { change (inject_Z 4) with 4%Q. change (inject_Z 3) with 3%Q in E. lra. }
    rewrite <- Zlt_Qlt in Hq. symmetry. apply bool_decide_eq_true. lia.
  - simpl. symmetry. apply bool_decide_eq_false. intros Hn.
    apply not_true_iff_false in E. apply E, py_lt_spec. rewrite to_Q_py_mul. simpl.
    assert (inject_Z 4 < inject_Z (Z.of_nat m))%Q as Hq by (rewrite <- Zlt_Qlt; lia).
    change (inject_Z 4) with 4%Q in Hq. change (inject_Z 3) with 3%Q. lra.
Qed.

Lemma to_Q_raw (sev : pystr) (n m : nat) :
  to_Q (py_add
          (py_add
             (py_add (PyInt (default 2 (SEVERITY_WEIGHTS !! sev)))
                (py_min (py_mul (PyInt (Z.of_nat n)) (PyFloat (1 # 2))) (PyInt 3)))
             (py_min (py_mul (PyInt (Z.of_nat m)) (PyFloat (3 # 4))) (PyInt 3)))
          (if decide (sev = py "Critical") then PyFloat (3 # 2) else PyInt 0))
  == spec_raw sev n m.
Proof.
  rewrite !to_Q_py_add, !to_Q_py_min, !to_Q_py_mul, to_Q_base.
  unfold spec_raw, spec_ioc_factor, spec_system_factor, spec_critical_bonus.
  simpl to_Q. by case_decide.
Qed.

(** The score is the rounded, clamped sum; the sum is an [int] when all its
    terms are. *)
Lemma score_shape (r : t) :
  ∃ raw, num_item (calculate_severity_score r) "score"
         = Some (py_round (py_min raw (PyInt 10)) 1)
         ∧ to_Q raw == spec_raw (severity r) (length (iocs r)) (length (affected_systems r))
         ∧ is_int raw
           = bool_decide (severity r ≠ py "Critical")
             && bool_decide (6 < length (iocs r))%nat
             && bool_decide (4 < length (affected_systems r))%nat.
Proof.
  eexists. split; [reflexivity|]. split; [apply to_Q_raw|].
  unfold len. rewrite !is_int_py_add, ioc_factor_type, system_factor_type. simpl.
  destruct (decide (severity r = py "Critical")) as [Hc|Hc]; simpl.
  - rewrite andb_false_r. symmetry. rewrite !andb_false_iff, bool_decide_eq_false. tauto.
  - rewrite andb_true_r. by rewrite (bool_decide_eq_true_2 _ Hc).
Qed.

(** X5. The score is a Python [int], not a [float], in two cases only: when
    the sum of the components exceeds 10 and is cut to the literal 10, and
    when the severity is not "Critical" and both factors are cut to the
    literal 3, which takes more than six IOCs and more than four systems. *)
Theorem score_is_int_iff (r : t) :
  ∃ s, num_item (calculate_severity_score r) "score" = Some s
       ∧ (is_int s = true
          ↔ (10 < spec_raw (severity r) (length (iocs r)) (length (affected_systems r)))%Q
            ∨ (severity r ≠ py "Critical"
               ∧ (6 < length (iocs r))%nat ∧ (4 < length (affected_systems r))%nat)).
Proof.
  destruct (score_shape r) as (raw & Hs & Hq & Hi).
  eexists. split; [exact Hs|].
  rewrite is_int_py_round. unfold py_min.
  destruct (py_lt (PyInt 10) raw) eqn:E.
  - apply py_lt_spec in E. rewrite Hq in E. simpl. tauto.
  - assert (¬ (10 < spec_raw (severity r) (length (iocs r))
                      (length (affected_systems r)))%Q) as Hno.
    { intros H. apply not_true_iff_false in E. apply E, py_lt_spec. by rewrite Hq. }
    rewrite Hi, !andb_true_iff, !bool_decide_eq_true. tauto.
Qed.

(** X6. A "Critical" incident with at least six IOCs and four affected systems
    gets the highest score there is: exactly 10, rated CRITICAL. *)
Theorem critical_maximum (r : t) :
  severity r = py "Critical" →
  (6 ≤ length (iocs r))%nat → (4 ≤ length (affected_systems r))%nat →
  num_item (calculate_severity_score r) "score" = Some (PyInt 10)
  ∧ str_item (calculate_severity_score r) "rating" = Some (py "CRITICAL").
Proof.
  intros Hsev Hn Hm.
  destruct (score_shape r) as (raw & Hs & Hq & _).
  assert (py_lt (PyInt 10) raw = true) as E.
  { apply py_lt_spec. rewrite Hq. unfold spec_raw.
    rewrite spec_ioc_factor_cap, spec_system_factor_cap by done.
    rewrite Hsev. by vm_compute. }
  unfold py_min in Hs. rewrite E in Hs. simpl in Hs.
  destruct (score_and_rating r) as (s & Hs' & Hr & _).
  rewrite Hs in Hs'. injection Hs' as <-. by rewrite Hr.
Qed.

Lemma critical_maximum_witness :
  num_item (calculate_severity_score (report_with (py "Critical") 9 4)) "score"
  = Some (PyInt 10)
  ∧ str_item (calculate_severity_score (report_with (py "Critical") 9 4)) "rating"
    = Some (py "CRITICAL").
Proof. apply critical_maximum; [reflexivity | vm_compute; lia ..]. Defined.

(** ** Ratings that cannot be reached *)

(** X7. A "Low" incident scores at most 7 and is never rated CRITICAL, however
    many IOCs and affected systems it has. *)
Theorem low_never_critical (r : t) :
  severity r = py "Low" →
  ∃ s rating, num_item (calculate_severity_score r) "score" = Some s
              ∧ str_item (calculate_severity_score r) "rating" = Some rating
              ∧ (to_Q s <= 7)%Q ∧ rating ≠ py "CRITICAL".
Proof.
  intros Hsev. destruct (score_and_rating r) as (s & Hs & Hr & Hq).
  assert (to_Q s <= 7)%Q as Hle.
  { rewrite Hq, Hsev.
    pose proof (round1_Z 7) as R7. change (inject_Z 7) with 7%Q in R7.
    rewrite <- R7. apply round1_mono. eapply Qle_trans; [apply Q.le_min_l|].
    unfold spec_raw.
    pose proof (spec_ioc_factor_bounds (length (iocs r))).
    pose proof (spec_system_factor_bounds (length (affected_systems r))).
    change (spec_base (py "Low")) with 1%Q.
    change (spec_critical_bonus (py "Low")) with 0%Q. lra. }
  exists s, (spec_rating (to_Q s)). split; [done|]. split; [done|]. split; [done|].
  intros Hc. apply spec_rating_cases in Hc. lra.
Qed.

Lemma low_never_critical_witness :
  ∃ s rating,
    num_item (calculate_severity_score (report_with (py "Low") 30 30)) "score" = Some s
    ∧ str_item (calculate_severity_score (report_with (py "Low") 30 30)) "rating"
      = Some rating
    ∧ (to_Q s <= 7)%Q ∧ rating ≠ py "CRITICAL".
Proof. apply low_never_critical. reflexivity. Defined.

(** X8. Without IOCs and affected systems the score is the weight of the
    severity plus the bonus, and the rating is MEDIUM for "Critical" and LOW
    for every other severity string. *)
Theorem no_evidence_rating (r : t) :
  iocs r = [] → affected_systems r = [] →
  ∃ s, num_item (calculate_severity_score r) "score" = Some s
       ∧ to_Q s == spec_base (severity r) + spec_critical_bonus (severity r)
       ∧ str_item (calculate_severity_score r) "rating"
         = Some (if decide (severity r = py "Critical") then py "MEDIUM" else py "LOW").
Proof.
  intros Hn Hm. destruct (score_and_rating r) as (s & Hs & Hr & Hq).
  rewrite Hn, Hm in Hq.
  assert (to_Q s == spec_base (severity r) + spec_critical_bonus (severity r)) as Hv.
  { rewrite Hq. unfold spec_score, spec_raw. simpl length.
    assert (spec_ioc_factor 0 == 0) as -> by (by vm_compute).
    assert (spec_system_factor 0 == 0) as -> by (by vm_compute).
    unfold spec_base, spec_critical_bonus.
    repeat case_decide; try congruence; by vm_compute. }
  exists s. split; [done|]. split; [done|]. rewrite Hr. f_equal.
  rewrite (spec_rating_comp _ _ Hv). unfold spec_base, spec_critical_bonus.
  repeat case_decide; try (by vm_compute);
    match goal with
    | H : ?x = py _, H' : ?x = py _ |- _ => rewrite H in H'; by vm_compute in H'
    end.
Qed.

Lemma no_evidence_rating_witness :
  ∃ s, num_item (calculate_severity_score (report_with (py "High") 0 0)) "score" = Some s
       ∧ to_Q s == spec_base (py "High") + spec_critical_bonus (py "High")
       ∧ str_item (calculate_severity_score (report_with (py "High") 0 0)) "rating"
         = Some (py "LOW").
Proof. apply (no_evidence_rating (report_with (py "High") 0 0)); reflexivity. Defined.

(** ** Rounding *)


Lemma round1_spec_ioc_factor (n : nat) : round1 (spec_ioc_factor n) == spec_ioc_factor n.
Proof.
  destruct (decide (6 ≤ n)%nat) as [H|H].
  - rewrite spec_ioc_factor_cap by done. apply (round1_Z 3).
  - do 6 (destruct n as [|n]; [by vm_compute|]). lia.
Qed.


(** ** Reading a whole report back *)

(** X11. Nothing of a report is lost in [to_dict]: the whole report, every
    scalar field and every entry of the four collections in its place, is
    read back from the dict. *)
Theorem to_dict_of_dict (r : t) : IncidentReport_of_dict (to_dict r) = Some r.
Proof.
  unfold IncidentReport_of_dict.
  pose proof (to_dict_timeline r) as Ht. pose proof (to_dict_iocs r) as Hi.
  pose proof (to_dict_affected_systems r) as Ha.
  pose proof (to_dict_recommendations r) as Hc.
  destruct r. simpl in *. rewrite Ht. simpl. rewrite Hi. simpl.
  rewrite Ha. simpl. rewrite Hc. done.
Qed.

(** ** The timeline as one sort *)

Lemma with_key_none {A} (key : A → pystr) (k : pystr) (l : list A) :
  (∀ x, x ∈ l → key x ≠ k) → with_key key k l = [].
Proof.
  induction l as [|x l IH]; intros H; [done|].
  rewrite with_key_cons. destruct (decide (key x = k)) as [E|E].
  - destruct (H x); [left | done].
  - apply IH. intros y Hy. apply H. by right.
Qed.

(** X12. Sorting after every insertion gives the timeline that sorting once,
    after the last insertion, would give. *)
Theorem timeline_is_one_sort (r : t) (cs : list call) :
  sorted_by TimelineEvent.timestamp (timeline_events r) →
  timeline_events (run r cs)
  = list_sort TimelineEvent.timestamp (timeline_events r ++ added_events cs).
Proof.
  intros Hr. apply (stable_sorted_unique TimelineEvent.timestamp).
  - by apply run_timeline_sorted.
  - apply list_sort_sorted.
  - intros k. by rewrite run_timeline_with_key, with_key_list_sort.
Qed.

Lemma timeline_is_one_sort_witness :
  timeline_events (run sample_fields sample_calls)
  = list_sort TimelineEvent.timestamp
      (timeline_events sample_fields ++ added_events sample_calls).
Proof. apply timeline_is_one_sort. constructor. Defined.

(** X13. On a sorted timeline, an event that is not earlier than any event
    already there is appended at the end, also when its timestamp ties
    with the last ones; an event strictly earlier than all is put first. *)
Theorem add_timeline_event_position (r : t) (ts d s : pystr) :
  sorted_by TimelineEvent.timestamp (timeline_events r) →
  ((∀ e, e ∈ timeline_events r → str_le (TimelineEvent.timestamp e) ts) →
   timeline_events (add_timeline_event r ts d s)
   = timeline_events r ++ [TimelineEvent.mk ts d s])
  ∧ ((∀ e, e ∈ timeline_events r → str_lt ts (TimelineEvent.timestamp e) = true) →
     timeline_events (add_timeline_event r ts d s)
     = TimelineEvent.mk ts d s :: timeline_events r).
Proof.
  intros Hr. simpl. split; intros H.
  - apply list_sort_of_sorted. apply StronglySorted_app_2; [|done|repeat constructor].
    intros x1 x2 H1 H2. apply list_elem_of_singleton in H2 as ->. by apply H.
  - apply (stable_sorted_unique TimelineEvent.timestamp).
    + apply list_sort_sorted.
    + constructor; [done|]. apply Forall_forall. intros e He.
      apply str_lt_le. simpl. by apply H.
    + intros k. rewrite with_key_list_sort, with_key_app, !with_key_cons. simpl.
      destruct (decide (ts = k)) as [<-|]; [|by rewrite app_nil_r].
      rewrite with_key_none; [done|]. intros e He Heq.
      specialize (H e He). rewrite Heq, str_lt_irrefl in H. done.
Qed.

Lemma add_timeline_event_position_witness :
  timeline_events (add_timeline_event (run sample_fields sample_calls)
                     (py "2025-02-11 09:00") (py "Host isolated") (py "SOC"))
  = timeline_events (run sample_fields sample_calls)
    ++ [TimelineEvent.mk (py "2025-02-11 09:00") (py "Host isolated") (py "SOC")]
  ∧ timeline_events (add_timeline_event (run sample_fields sample_calls)
                       (py "2025-02-10 23:59") (py "Domain registered") (py "OSINT"))
    = TimelineEvent.mk (py "2025-02-10 23:59") (py "Domain registered") (py "OSINT")
      :: timeline_events (run sample_fields sample_calls).
Proof.
  assert (sorted_by TimelineEvent.timestamp (timeline_events (run sample_fields sample_calls)))
    as Hs by (apply run_timeline_sorted; constructor).
  split.
  - apply (add_timeline_event_position _ _ _ _ Hs).
    intros e He. vm_compute in He.
    repeat (apply elem_of_cons in He as [-> | He]; [reflexivity|]).
    by apply elem_of_nil in He.
  - apply (add_timeline_event_position _ _ _ _ Hs).
    intros e He. vm_compute in He.
    repeat (apply elem_of_cons in He as [-> | He]; [reflexivity|]).
    by apply elem_of_nil in He.
Defined.

Lemma with_key_NoDup_length {A} (key : A → pystr) (k : pystr) (l : list A) :
  NoDup (key <$> l) → (length (with_key key k l) ≤ 1)%nat.
Proof.
  induction l as [|x l IH]; [simpl; lia|].
  rewrite fmap_cons, NoDup_cons, with_key_cons. intros [Hx Hl].
  destruct (decide (key x = k)) as [E|E]; [|by apply IH].
  rewrite with_key_none; [simpl; lia|].
  intros y Hy Hk. apply Hx. rewrite E, <- Hk. by apply list_elem_of_fmap_2.
Qed.

Lemma with_key_Permutation_NoDup {A} (key : A → pystr) (k : pystr) (l l' : list A) :
  l ≡ₚ l' → NoDup (key <$> l) → with_key key k l = with_key key k l'.
Proof.
  intros Hp Hnd. pose proof (with_key_NoDup_length key k l Hnd) as Hlen.
  assert (with_key key k l ≡ₚ with_key key k l') as Hf.
  { unfold with_key. by rewrite Hp. }
  destruct (with_key key k l) as [|x [|y l0]]; simpl in Hlen; [| |lia].
  - by apply Permutation_nil_l.
  - by apply Permutation_singleton_l.
Qed.



(** ** Recommendations are stored trimmed *)

Lemma lstrip_trimmed (s : pystr) :
  (∀ c, head s = Some c → Py_UNICODE_ISSPACE c = false) → lstrip s = s.
Proof. destruct s as [|c s]; [done|]. intros H. simpl. by rewrite (H c). Qed.

Lemma rstrip_trimmed (s : pystr) :
  (∀ c, last s = Some c → Py_UNICODE_ISSPACE c = false) → rstrip s = s.
Proof.
  intros H. unfold rstrip. rewrite lstrip_trimmed; [apply reverse_involutive|].
  intros c. rewrite head_reverse. apply H.
Qed.

Lemma strip_trimmed (s : pystr) : trimmed s → strip s = s.
Proof.
  intros [Hh Hl]. unfold strip. rewrite (lstrip_trimmed s Hh). by apply rstrip_trimmed.
Qed.

Lemma strip_is_trimmed (s : pystr) : trimmed (strip s).
Proof. destruct (strip_spec s) as (pre & post & _ & _ & _ & Hh & Hl). by split. Qed.



(** ** Construction, again *)

Lemma construct_report_Some (rt : Runtime) (fields r : t) :
  construct_report rt fields = Some r → r = __init__ rt fields.
Proof. unfold construct_report. destruct (_ && _); [done|]. by intros [= <-]. Qed.

Lemma init_id_nonempty (rt : Runtime) (fields : t) : incident_id (__init__ rt fields) ≠ [].
Proof.
  unfold __init__, __post_init__.
  destruct fields as [? ? ? ? ? ? ? ? ? ? id cr ? ? ? ?]; simpl.
  destruct id, cr; done.
Qed.

(** X16. A constructed report has a non-empty [incident_id], whatever was
    supplied and whatever the clock and the hash return; constructing a
    report from the fields of a constructed one, at any later time,
    succeeds and keeps that identifier, and gives the same report when the
    first construction stored a non-empty [created_at]. *)
Theorem construction_idempotent (rt rt' : Runtime) (fields r : t) :
  construct_report rt fields = Some r →
  incident_id r ≠ []
  ∧ ∃ r', construct_report rt' r = Some r'
          ∧ incident_id r' = incident_id r
          ∧ (created_at r ≠ [] → r' = r).
Proof.
  intros ->%construct_report_Some.
  pose proof (init_id_nonempty rt fields) as Hid. split; [done|].
  exists (__init__ rt' (__init__ rt fields)). split; [|split].
  - unfold construct_report. by rewrite (proj2 (str_truthy_true _) Hid).
  - unfold __init__ at 1 3, __post_init__ at 1.
    rewrite (proj2 (str_truthy_true _) Hid). simpl.
    by destruct (str_truthy (created_at _)).
  - intros Hcr. unfold __init__ at 1, __post_init__ at 1.
    rewrite (proj2 (str_truthy_true _) Hid). simpl.
    by rewrite (proj2 (str_truthy_true _) Hcr).
Qed.

Lemma construction_idempotent_witness :
  incident_id (__init__ sample_runtime sample_fields) ≠ []
  ∧ ∃ r', construct_report sample_runtime (__init__ sample_runtime sample_fields) = Some r'
          ∧ incident_id r' = incident_id (__init__ sample_runtime sample_fields)
          ∧ (created_at (__init__ sample_runtime sample_fields) ≠ [] →
             r' = __init__ sample_runtime sample_fields).
Proof.
  apply (construction_idempotent sample_runtime sample_runtime sample_fields).
  reflexivity.
Defined.

(** Construction assigns [incident_id] and [created_at] and nothing else:
    the other scalar fields and the four collections are the ones supplied. *)
Lemma construction_keeps_fields (rt : Runtime) (fields r : t) :
  construct_report rt fields = Some r →
  title r = title fields
  ∧ severity r = severity fields
  ∧ category r = category fields
  ∧ analyst r = analyst fields
  ∧ description r = description fields
  ∧ detection_date r = detection_date fields
  ∧ containment_date r = containment_date fields
  ∧ eradication_date r = eradication_date fields
  ∧ recovery_date r = recovery_date fields
  ∧ executive_summary r = executive_summary fields
  ∧ timeline_events r = timeline_events fields
  ∧ iocs r = iocs fields
  ∧ affected_systems r = affected_systems fields
  ∧ recommendations r = recommendations fields.
Proof.
  intros ->%construct_report_Some. unfold __init__, __post_init__.
  destruct (str_truthy (incident_id fields)); simpl;
    destruct (str_truthy (created_at _)); done.
Qed.


(** X18. With a clock that prints the date in eight characters, a digest of at
    least four, and an upper-casing that keeps the length, a generated
    identifier has the sixteen characters of IR-YYYYMMDD-XXXX: "IR-", the
    date, a dash, and the upper-cased first four characters of the digest of
    title, time and UUID. *)
Theorem generated_id_format (rt : Runtime) (fields r : t) :
  well_formed_runtime rt →
  incident_id fields = [] →
  construct_report rt fields = Some r →
  length (incident_id r) = 16%nat
  ∧ take 3 (incident_id r) = py "IR-"
  ∧ take 8 (drop 3 (incident_id r)) = utcnow_Ymd rt
  ∧ incident_id r !! 11%nat = Some 45%N
  ∧ drop 12 (incident_id r)
    = upper rt (take 4 (sha256_hexdigest rt
                          (title fields ++ utcnow_isoformat rt ++ uuid4 rt))).
Proof.
  intros (Hd & Hh & Hu) Hid ->%construct_report_Some.
  assert (incident_id (__init__ rt fields) = _generate_incident_id rt fields) as ->.
  { unfold __init__, __post_init__. rewrite Hid. simpl.
    by destruct (str_truthy (created_at fields)). }
  unfold _generate_incident_id.
  set (sfx := upper rt _).
  assert (length sfx = 4%nat) as Hs.
  { unfold sfx. rewrite Hu, length_take.
    specialize (Hh (title fields ++ utcnow_isoformat rt ++ uuid4 rt)). lia. }
  destruct (utcnow_Ymd rt) as [|d1 [|d2 [|d3 [|d4 [|d5 [|d6 [|d7 [|d8 [|]]]]]]]]];
    try discriminate Hd.
  repeat split; try done. simpl. rewrite Hs. done.
Qed.

Lemma generated_id_format_witness :
  length (incident_id (__init__ sample_runtime sample_fields)) = 16%nat
  ∧ take 3 (incident_id (__init__ sample_runtime sample_fields)) = py "IR-"
  ∧ take 8 (drop 3 (incident_id (__init__ sample_runtime sample_fields))) = py "20250211"
  ∧ incident_id (__init__ sample_runtime sample_fields) !! 11%nat = Some 45%N
  ∧ drop 12 (incident_id (__init__ sample_runtime sample_fields)) = py "A3F7".
Proof.
  apply (generated_id_format sample_runtime sample_fields); [|reflexivity|reflexivity].
  split; [reflexivity|]. split; [intros s; vm_compute; lia|].
  intros s. apply length_fmap.
Defined.

(** ** The severity levels and the weight table *)

(** X19. The keys of [SEVERITY_WEIGHTS] are the values of [SeverityLevel], no
    more and no fewer, and the weights count the levels from 1 in their
    order of definition. *)
Theorem severity_levels_weighted (sev : pystr) (level : SeverityLevel.t) :
  SEVERITY_WEIGHTS !! SeverityLevel.value level
  = Some (Z.of_nat (S (SeverityLevel.rank level)))
  ∧ (is_Some (SEVERITY_WEIGHTS !! sev) ↔ ∃ l, sev = SeverityLevel.value l).
Proof.
  split; [by destruct level|].
  rewrite <- known_severity_keys. unfold known_severity. split.
  - intros [-> | [-> | [-> | ->]]];
      [by exists SeverityLevel.LOW | by exists SeverityLevel.MEDIUM
       | by exists SeverityLevel.HIGH | by exists SeverityLevel.CRITICAL].
  - intros [[] ->]; simpl; tauto.
Qed.

(* ================================================================= *)
(** * The request handler *)

Lemma for_each_timeline (r : t) (events : list TimelineEvent.t) :
  for_each timeline_body r (event_payload <$> events)
  = Done (run r ((λ e, AddTimelineEvent (TimelineEvent.timestamp e)
                         (TimelineEvent.description e) (TimelineEvent.source e))
                 <$> events)).
Proof.
  revert r. induction events as [|e events IH]; intros r; [done|].
  rewrite !fmap_cons, run_cons. simpl for_each. by rewrite <- IH.
Qed.

Lemma for_each_iocs (r : t) (l : list IOC.t) :
  for_each ioc_body r (ioc_payload <$> l)
  = Done (run r ((λ i, AddIoc (IOC.ioc_type i) (IOC.value i) (IOC.context i)) <$> l)).
Proof.
  revert r. induction l as [|i l IH]; intros r; [done|].
  rewrite !fmap_cons, run_cons. simpl for_each. by rewrite <- IH.
Qed.

Lemma for_each_systems (r : t) (l : list AffectedSystem.t) :
  for_each system_body r (system_payload <$> l)
  = Done (run r ((λ a, AddAffectedSystem (AffectedSystem.hostname a)
                         (AffectedSystem.ip_address a) (AffectedSystem.impact a))
                 <$> l)).
Proof.
  revert r. induction l as [|a l IH]; intros r; [done|].
  rewrite !fmap_cons, run_cons. simpl for_each. by rewrite <- IH.
Qed.

Lemma for_each_recommendations (r : t) (l : list pystr) :
  for_each recommendation_body r (JStr <$> l) = Done (run r (AddRecommendation <$> l)).
Proof.
  revert r. induction l as [|x l IH]; intros r; [done|].
  rewrite !fmap_cons, run_cons. simpl for_each. by rewrite <- IH.
Qed.

Lemma for_each_recommendations_raise (r : t) (l : list json) :
  (∃ x, x ∈ l ∧ ∀ s, x ≠ JStr s) → for_each recommendation_body r l = Raised.
Proof.
  revert r. induction l as [|y l IH]; intros r (x & Hx & Hns).
  - by apply elem_of_nil in Hx.
  - simpl. destruct y as [| | |s| |]; try done. simpl.
    apply IH. exists x. split; [|done].
    apply elem_of_cons in Hx as [->|Hx]; [|done]. by destruct (Hns s).
Qed.

Lemma construct_payload (rt : Runtime) (f : t) (events : list TimelineEvent.t)
    (iocs : list IOC.t) (systems : list AffectedSystem.t) (recs : json) :
  encode_raises (title f ++ utcnow_isoformat rt ++ uuid4 rt) = false →
  construct rt (payload_with f events iocs systems recs)
  = Done (__init__ rt (payload_fields f)).
Proof.
  intros He. unfold construct, payload_with. simpl.
  unfold construct_report. simpl. by rewrite He.
Qed.

Lemma build_payload_with (rt : Runtime) (f : t) (events : list TimelineEvent.t)
    (iocs : list IOC.t) (systems : list AffectedSystem.t) (recs : json) :
  encode_raises (title f ++ utcnow_isoformat rt ++ uuid4 rt) = false →
  build_report rt (payload_with f events iocs systems recs)
  = (l ← iterate recs;
     for_each recommendation_body
       (run (__init__ rt (payload_fields f))
          (payload_calls events iocs systems [])) l).
Proof.
  intros He. unfold build_report. rewrite (construct_payload _ _ _ _ _ _ He).
  unfold payload_with. simpl.
  rewrite for_each_timeline. simpl. rewrite for_each_iocs. simpl.
  rewrite for_each_systems. simpl.
  unfold payload_calls. rewrite fmap_nil, app_nil_r, !run_app. done.
Qed.

Lemma run_incident_id (r : t) (cs : list call) : incident_id (run r cs) = incident_id r.
Proof.
  revert r. induction cs as [|c cs IH]; intros r; [done|].
  rewrite run_cons, IH. destruct c; simpl; try done.
  unfold add_recommendation. by destruct (str_truthy _).
Qed.

Lemma run_created_at (r : t) (cs : list call) : created_at (run r cs) = created_at r.
Proof.
  revert r. induction cs as [|c cs IH]; intros r; [done|].
  rewrite run_cons, IH. destruct c; simpl; try done.
  unfold add_recommendation. by destruct (str_truthy _).
Qed.

Lemma run_title (r : t) (cs : list call) : title (run r cs) = title r.
Proof.
  revert r. induction cs as [|c cs IH]; intros r; [done|].
  rewrite run_cons, IH. destruct c; simpl; try done.
  unfold add_recommendation. by destruct (str_truthy _).
Qed.

(** X20. A payload with every key and every value of the expected type, and a
    title that can be hashed, is answered with status 200: the report is
    constructed from the scalar fields, the timeline events, the IOCs, the
    affected systems and the recommendations are added in this order, and
    the response carries the generated identifier and the two renderings
    of that report. *)
Theorem generate_report_payload (rt : Runtime) (exporter : Exporter) (f : t)
    (events : list TimelineEvent.t) (iocs : list IOC.t)
    (systems : list AffectedSystem.t) (recs : list pystr) :
  encode_raises (title f ++ utcnow_isoformat rt ++ uuid4 rt) = false →
  build_report rt (payload f events iocs systems recs)
  = Done (run (__init__ rt (payload_fields f)) (payload_calls events iocs systems recs))
  ∧ generate_report rt exporter (payload f events iocs systems recs)
    = Some (JDict [ (py "success", JBool true);
                    (py "incident_id", JStr (_generate_incident_id rt f));
                    (py "markdown",
                      JStr (to_markdown exporter
                              (run (__init__ rt (payload_fields f))
                                 (payload_calls events iocs systems recs))));
                    (py "json",
                      JStr (to_json exporter
                              (run (__init__ rt (payload_fields f))
                                 (payload_calls events iocs systems recs)))) ],
            200).
Proof.
  intros He.
  assert (build_report rt (payload f events iocs systems recs)
          = Done (run (__init__ rt (payload_fields f))
                    (payload_calls events iocs systems recs))) as Hb.
  { unfold payload. rewrite (build_payload_with _ _ _ _ _ _ He). simpl.
    rewrite for_each_recommendations, <- run_app. f_equal. f_equal.
    unfold payload_calls. by rewrite fmap_nil, !app_nil_r, <- !app_assoc. }
  split; [exact Hb|].
  unfold generate_report. rewrite Hb. simpl. rewrite run_incident_id.
  unfold __init__, __post_init__. simpl.
  by destruct (str_truthy (utcnow_created rt)).
Qed.

Lemma generate_report_payload_witness :
  ∃ report md js,
    build_report sample_runtime
      (payload sample_fields (added_events sample_calls) (added_iocs sample_calls)
         (added_systems sample_calls) [py " Reset passwords "; py "  "])
    = Done report
    ∧ recommendations report = [py "Reset passwords"]
    ∧ generate_report sample_runtime sample_exporter
        (payload sample_fields (added_events sample_calls) (added_iocs sample_calls)
           (added_systems sample_calls) [py " Reset passwords "; py "  "])
      = Some (JDict [ (py "success", JBool true);
                      (py "incident_id", JStr (py "IR-20250211-A3F7"));
                      (py "markdown", JStr md);
                      (py "json", JStr js) ], 200).
Proof.
  destruct (generate_report_payload sample_runtime sample_exporter sample_fields
              (added_events sample_calls) (added_iocs sample_calls)
              (added_systems sample_calls) [py " Reset passwords "; py "  "] eq_refl)
    as (Hb & Hg).
  eexists _, _, _. split; [exact Hb|]. split; [reflexivity | exact Hg].
Defined.

(** X21. A body that is not a JSON object never gives a report: [null], [false],
    zero, the empty string and the empty list are answered with 400, every
    other value that is not an object with 500.  The empty object is
    answered with 400 too, although every field has a default. *)
Theorem generate_report_not_an_object (rt : Runtime) (exporter : Exporter) (data : json) :
  ((∀ d, data ≠ JDict d) →
   generate_report rt exporter data
   = Some (if truthy data
           then error_response "An internal error has occurred while generating the report." 500
           else error_response "No data provided" 400))
  ∧ generate_report rt exporter (JDict []) = Some (error_response "No data provided" 400).
Proof.
  split; [|done]. intros Hd. unfold generate_report.
  destruct (truthy data) eqn:E; [|done]. simpl.
  destruct data as [| | | | |d]; try done. by destruct (Hd d).
Qed.

Lemma generate_report_not_an_object_witness :
  generate_report sample_runtime sample_exporter (JList [JStr (py "title")])
  = Some (error_response "An internal error has occurred while generating the report." 500)
  ∧ generate_report sample_runtime sample_exporter JNull
    = Some (error_response "No data provided" 400).
Proof.
  split.
  - by apply (generate_report_not_an_object sample_runtime sample_exporter
                (JList [JStr (py "title")])).
  - by apply (generate_report_not_an_object sample_runtime sample_exporter JNull).
Defined.

(** X22. One recommendation that is not a string fails the whole request with
    status 500, however well-formed the rest of the payload is. *)
Theorem generate_report_bad_recommendation (rt : Runtime) (exporter : Exporter) (f : t)
    (events : list TimelineEvent.t) (iocs : list IOC.t)
    (systems : list AffectedSystem.t) (recs : list json) :
  encode_raises (title f ++ utcnow_isoformat rt ++ uuid4 rt) = false →
  (∃ x, x ∈ recs ∧ ∀ s, x ≠ JStr s) →
  generate_report rt exporter (payload_with f events iocs systems (JList recs))
  = Some (error_response "An internal error has occurred while generating the report." 500).
Proof.
  intros He Hx. unfold generate_report.
  rewrite (build_payload_with _ _ _ _ _ _ He). simpl.
  by rewrite (for_each_recommendations_raise _ _ Hx).
Qed.

Lemma generate_report_bad_recommendation_witness :
  generate_report sample_runtime sample_exporter
    (payload_with sample_fields [] [] [] (JList [JStr (py "Patch"); JNull]))
  = Some (error_response "An internal error has occurred while generating the report." 500).
Proof.
  apply generate_report_bad_recommendation; [reflexivity|].
  exists JNull. split; [right; left | done].
Defined.

Lemma strip_char (c : N) : strip [c] = if Py_UNICODE_ISSPACE c then [] else [c].
Proof.
  unfold strip, rstrip. simpl. destruct (Py_UNICODE_ISSPACE c) eqn:E; [done|].
  simpl. by rewrite E.
Qed.

Lemma added_recommendations_cons (s : pystr) (cs : list call) :
  added_recommendations (AddRecommendation s :: cs)
  = if str_truthy (strip s) then strip s :: added_recommendations cs
    else added_recommendations cs.
Proof. unfold added_recommendations. simpl. by destruct (str_truthy _). Qed.

Lemma added_recommendations_chars (s : pystr) :
  added_recommendations (AddRecommendation <$> ((λ c, [c]) <$> s))
  = (λ c, [c]) <$> filter (λ c, Py_UNICODE_ISSPACE c = false) s.
Proof.
  induction s as [|c s IH]; [done|].
  rewrite (filter_cons (λ c, Py_UNICODE_ISSPACE c = false)), !fmap_cons.
  rewrite added_recommendations_cons, IH, strip_char.
  destruct (Py_UNICODE_ISSPACE c); by case_decide.
Qed.

Lemma added_recommendations_other (cs : list call) :
  Forall (λ c, ∀ s, c ≠ AddRecommendation s) cs → added_recommendations cs = [].
Proof.
  induction 1 as [|c cs Hc _ IH]; [done|].
  destruct c; try exact IH. by destruct (Hc recommendation).
Qed.

(** X23. A payload whose "recommendations" is a string instead of a list is not
    refused: the loop runs over its characters, and every character that is
    not whitespace becomes a recommendation of its own. *)
Theorem generate_report_string_recommendations (rt : Runtime) (f : t)
    (events : list TimelineEvent.t) (iocs : list IOC.t)
    (systems : list AffectedSystem.t) (s : pystr) :
  encode_raises (title f ++ utcnow_isoformat rt ++ uuid4 rt) = false →
  ∃ report,
    build_report rt (payload_with f events iocs systems (JStr s)) = Done report
    ∧ recommendations report
      = (λ c, [c]) <$> filter (λ c, Py_UNICODE_ISSPACE c = false) s.
Proof.
  intros He. eexists. split.
  - rewrite (build_payload_with _ _ _ _ _ _ He). simpl.
    rewrite (list_fmap_compose (λ c, [c]) JStr s : (λ c, JStr [c]) <$> s = _).
    apply for_each_recommendations.
  - rewrite !run_recommendations, added_recommendations_chars.
    destruct (init_collections rt (payload_fields f)) as (_ & _ & _ & ->). simpl.
    rewrite added_recommendations_other; [done|].
    unfold payload_calls. rewrite fmap_nil, app_nil_r, !Forall_app, !Forall_fmap.
    repeat split; by apply Forall_true.
Qed.

Lemma generate_report_string_recommendations_witness :
  ∃ report,
    build_report sample_runtime (payload_with sample_fields [] [] [] (JStr (py "Go now")))
    = Done report
    ∧ recommendations report = [py "G"; py "o"; py "n"; py "o"; py "w"].
Proof.
  apply (generate_report_string_recommendations sample_runtime sample_fields [] [] []
           (py "Go now")).
  reflexivity.
Defined.

(** X24. A payload that is an object but has none of the keys the handler
    reads is answered with status 200, for a report made of the defaults:
    title "Untitled Incident", severity "Medium", category "Other", analyst
    "Unknown Analyst", everything else empty. *)
Theorem generate_report_defaults (rt : Runtime) (exporter : Exporter)
    (d : list (pystr * json)) :
  d ≠ [] →
  Forall (λ k, entry k d = None) handler_keys →
  encode_raises (py "Untitled Incident" ++ utcnow_isoformat rt ++ uuid4 rt) = false →
  build_report rt (JDict d) = Done (__init__ rt default_fields)
  ∧ ∃ body, generate_report rt exporter (JDict d) = Some (body, 200).
Proof.
  intros Hd Hk He.
  assert (build_report rt (JDict d) = Done (__init__ rt default_fields)) as Hb.
  { unfold handler_keys in Hk. rewrite !fmap_cons in Hk.
    repeat match type of Hk with
           | Forall _ (_ :: _) => apply Forall_cons in Hk as [? Hk]
           end.
    unfold build_report, construct, get.
    repeat match goal with H : entry _ d = None |- _ => rewrite H; clear H end.
    simpl. unfold construct_report. simpl in He |- *. rewrite He. done. }
  split; [exact Hb|]. unfold generate_report. rewrite Hb.
  destruct d; [done|]. simpl. eauto.
Qed.

Lemma generate_report_defaults_witness :
  build_report sample_runtime (JDict [ (py "note", JBool true) ])
  = Done (__init__ sample_runtime default_fields)
  ∧ ∃ body, generate_report sample_runtime sample_exporter
              (JDict [ (py "note", JBool true) ]) = Some (body, 200).
Proof.
  apply generate_report_defaults; [discriminate | | reflexivity].
  repeat constructor.
Defined.

Lemma timeline_body_call (r r' : t) (x : json) :
  timeline_body r x = Done r' → ∃ c, r' = do_call r c.
Proof.
  unfold timeline_body, get. destruct x as [| | | | |d]; try done. simpl.
  repeat match goal with
         | |- context [as_str (default ?a ?b)] => destruct (default a b); simpl; try done
         end.
  intros [= <-]. by eexists (AddTimelineEvent _ _ _).
Qed.

Lemma ioc_body_call (r r' : t) (x : json) :
  ioc_body r x = Done r' → ∃ c, r' = do_call r c.
Proof.
  unfold ioc_body, get. destruct x as [| | | | |d]; try done. simpl.
  repeat match goal with
         | |- context [as_str (default ?a ?b)] => destruct (default a b); simpl; try done
         end.
  intros [= <-]. by eexists (AddIoc _ _ _).
Qed.

Lemma system_body_call (r r' : t) (x : json) :
  system_body r x = Done r' → ∃ c, r' = do_call r c.
Proof.
  unfold system_body, get. destruct x as [| | | | |d]; try done. simpl.
  repeat match goal with
         | |- context [as_str (default ?a ?b)] => destruct (default a b); simpl; try done
         end.
  intros [= <-]. by eexists (AddAffectedSystem _ _ _).
Qed.

Lemma recommendation_body_call (r r' : t) (x : json) :
  recommendation_body r x = Done r' → ∃ c, r' = do_call r c.
Proof.
  destruct x as [| | |s| |]; try done. intros [= <-]. by exists (AddRecommendation s).
Qed.

Lemma for_each_run {A} (body : t → A → outcome t) (r r' : t) (l : list A) :
  (∀ r x r', body r x = Done r' → ∃ c, r' = do_call r c) →
  for_each body r l = Done r' → ∃ cs, r' = run r cs.
Proof.
  intros Hbody. revert r. induction l as [|x l IH]; intros r; simpl.
  - intros [= <-]. by exists [].
  - destruct (body r x) as [r1| |] eqn:E; try done. simpl.
    intros (cs & ->)%IH. destruct (Hbody _ _ _ E) as (c & ->). by exists (c :: cs).
Qed.

Lemma construct_init (rt : Runtime) (data : json) (r : t) :
  construct rt data = Done r →
  ∃ f, r = __init__ rt f ∧ incident_id f = [] ∧ created_at f = []
       ∧ timeline_events f = [] ∧ recommendations f = [].
Proof.
  unfold construct, get. destruct data as [| | | | |d]; try done.
  unfold mbind, outcome_bind. cbn [and_then].
  repeat match goal with
         | |- context [as_str (default ?a ?b)] =>
             destruct (default a b); cbn [and_then as_str];
             try (intros H; discriminate H)
         end.
  destruct (construct_report _ _) eqn:E; [|done]. intros [= <-].
  apply construct_report_Some in E. eauto 10.
Qed.

Lemma build_report_run (rt : Runtime) (data : json) (r : t) :
  build_report rt data = Done r →
  ∃ f cs, r = run (__init__ rt f) cs ∧ incident_id f = [] ∧ created_at f = []
          ∧ timeline_events f = [] ∧ recommendations f = [].
Proof.
  unfold build_report. destruct (construct rt data) as [r0| |] eqn:E0; try done. simpl.
  destruct (construct_init _ _ _ E0) as (f & -> & Hf).
  destruct (_ ← get data "timeline_events" _; _) as [l1| |]; try done. simpl.
  destruct (for_each timeline_body _ l1) as [r1| |] eqn:E1; try done. simpl.
  destruct (_ ← get data "iocs" _; _) as [l2| |]; try done. simpl.
  destruct (for_each ioc_body _ l2) as [r2| |] eqn:E2; try done. simpl.
  destruct (_ ← get data "affected_systems" _; _) as [l3| |]; try done. simpl.
  destruct (for_each system_body _ l3) as [r3| |] eqn:E3; try done. simpl.
  destruct (_ ← get data "recommendations" _; _) as [l4| |]; try done. simpl.
  intros E4.
  apply (for_each_run (A:=json)) in E1 as (cs1 & ->); [|intros ? ? ?; apply timeline_body_call].
  apply (for_each_run (A:=json)) in E2 as (cs2 & ->); [|intros ? ? ?; apply ioc_body_call].
  apply (for_each_run (A:=json)) in E3 as (cs3 & ->); [|intros ? ? ?; apply system_body_call].
  apply (for_each_run (A:=json)) in E4 as (cs4 & ->); [|intros ? ? ?; apply recommendation_body_call].
  exists f, (cs1 ++ cs2 ++ cs3 ++ cs4). by rewrite !run_app.
Qed.


